(** * The Truth Machine: a shallow embedding of the fact-checking pipeline

    The development follows the Python sources module by module:
    [Py] (the fragment of Python's [str] and of exceptions that the code
    relies on), [UrlLib] ([urllib.parse]: [quote], [unquote], [urlparse]),
    [WikipediaScraper], [GoogleCustomSearch], [Claims], [Factcheck],
    [LocalOpenAIClient], [LocalFactcheckFull], [MainLocal], [MainQuery]
    ([main.py]), [LocalClientSetup] and [FullLocalTest] (the test runner).

    A Python [str] is represented by its UTF-8 encoding, a Rocq [string]
    (a sequence of bytes).  ASCII delimiters, substring tests and
    concatenation act on the encoding exactly as they act on the text;
    lengths and slices count code points.  A [str] that holds a lone
    surrogate has no UTF-8 encoding ([quote] raises on it, pydantic
    rejects it in a [ClaimResult]) and is not represented. *)

From Stdlib Require Import String Ascii List NArith ZArith Bool Lia Permutation.
Import ListNotations.
Local Open Scope string_scope.
Set Warnings "-register-all".

(* ================================================================= *)
(** ** Python strings and exceptions *)

Module Py.

Definition str := string.

(** [ord c]: the value of a byte. *)
Definition ord (c : ascii) : N := N_of_ascii c.

Definition in_range (lo hi : N) (c : ascii) : bool :=
  ((lo <=? ord c) && (ord c <=? hi))%N.

(** Truth value of a string: [if s:]. *)
Definition truthy (s : str) : bool := negb (s =? "").

(** Truth value of an [Optional[str]]: [None] and [""] are false. *)
Definition truthy_opt (o : option str) : bool :=
  match o with
  | Some s => truthy s
  | None => false
  end.

(** [c in s] for a one-character [c]. *)
Fixpoint mem (c : ascii) (s : str) : bool :=
  match s with
  | "" => false
  | String d r => Ascii.eqb c d || mem c r
  end.

Fixpoint all (p : ascii -> bool) (s : str) : bool :=
  match s with
  | "" => true
  | String c r => p c && all p r
  end.

(** [needle in hay]. *)
Fixpoint contains (needle hay : str) : bool :=
  prefix needle hay ||
  match hay with
  | "" => false
  | String _ r => contains needle r
  end.

(** [s.split(sep)] for a one-character separator. *)
Fixpoint split_on (sep : ascii) (s : str) : list str :=
  match s with
  | "" => [""]
  | String c r =>
      if Ascii.eqb c sep then "" :: split_on sep r
      else match split_on sep r with
           | h :: t => String c h :: t
           | [] => [String c ""]
           end
  end.

(** [s.partition(sep)]: the text before the first [sep] and the text
    after it, [None] when [sep] does not occur ([s.find(sep) < 0]). *)
Fixpoint partition (sep : ascii) (s : str) : option (str * str) :=
  match s with
  | "" => None
  | String c r =>
      if Ascii.eqb c sep then Some ("", r)
      else match partition sep r with
           | Some (a, b) => Some (String c a, b)
           | None => None
           end
  end.

(** [s.rpartition(sep)]: split at the last [sep]. *)
Fixpoint rpartition (sep : ascii) (s : str) : option (str * str) :=
  match s with
  | "" => None
  | String c r =>
      match rpartition sep r with
      | Some (a, b) => Some (String c a, b)
      | None => if Ascii.eqb c sep then Some ("", r) else None
      end
  end.

(** The longest prefix whose characters satisfy [p], and the rest. *)
Fixpoint span (p : ascii -> bool) (s : str) : str * str :=
  match s with
  | "" => ("", "")
  | String c r =>
      if p c then let (a, b) := span p r in (String c a, b)
      else ("", s)
  end.

Fixpoint filter (p : ascii -> bool) (s : str) : str :=
  match s with
  | "" => ""
  | String c r => if p c then String c (filter p r) else filter p r
  end.

Fixpoint map (f : ascii -> ascii) (s : str) : str :=
  match s with
  | "" => ""
  | String c r => String (f c) (map f r)
  end.

Fixpoint drop (n : nat) (s : str) : str :=
  match n, s with
  | O, _ => s
  | S _, "" => ""
  | S n', String _ r => drop n' r
  end.

(** ["sep".join(parts)] *)
Definition join (sep : str) (parts : list str) : str := String.concat sep parts.

Definition is_upper (c : ascii) : bool := in_range 65 90 c.
Definition is_lower (c : ascii) : bool := in_range 97 122 c.
Definition is_digit (c : ascii) : bool := in_range 48 57 c.
Definition is_ascii (c : ascii) : bool := (ord c <? 128)%N.
Definition is_alpha (c : ascii) : bool := is_upper c || is_lower c.
Definition is_alnum (c : ascii) : bool := is_alpha c || is_digit c.

(** [s.lower()] on the ASCII letters.  The code lowers a URL scheme
    (ASCII by construction) and searches the lowered gateway text for
    the ASCII words "true" and "false". *)
Definition lower_char (c : ascii) : ascii :=
  if is_upper c then ascii_of_N (ord c + 32) else c.
Definition lower (s : str) : str := map lower_char s.

(** A continuation byte of a UTF-8 sequence. *)
Definition is_cont (c : ascii) : bool := in_range 128 191 c.

(** [len(s)]: the number of code points. *)
Fixpoint len (s : str) : nat :=
  match s with
  | "" => O
  | String c r => if is_cont c then len r else S (len r)
  end.

(** [s[:n]] for [n >= 0]: the first [n] code points. *)
Fixpoint take (n : nat) (s : str) : str :=
  match s with
  | "" => ""
  | String c r =>
      if is_cont c then String c (take n r)
      else match n with
           | O => ""
           | S n' => String c (take n' r)
           end
  end.

(** Size in bytes of the white-space character at the head of [s], or
    [0] when [s] does not start with one.  White space is what
    [str.isspace] accepts: U+0009..U+000D, U+001C..U+0020, U+0085,
    U+00A0, U+1680, U+2000..U+200A, U+2028, U+2029, U+202F, U+205F,
    U+3000. *)
Definition space_size (s : str) : nat :=
  match s with
  | "" => 0
  | String c r =>
      if in_range 9 13 c || in_range 28 32 c then 1
      else
        match r with
        | "" => 0
        | String d r1 =>
            if (ord c =? 194)%N then
              if ((ord d =? 133) || (ord d =? 160))%N then 2 else 0
            else
              match r1 with
              | "" => 0
              | String e _ =>
                  if ((ord c =? 225) && (ord d =? 154) && (ord e =? 128))%N
                  then 3
                  else if ((ord c =? 226) && (ord d =? 128))%N
                          && (in_range 128 138 e || in_range 168 169 e
                              || (ord e =? 175)%N)
                  then 3
                  else if ((ord c =? 226) && (ord d =? 129) && (ord e =? 159))%N
                  then 3
                  else if ((ord c =? 227) && (ord d =? 128) && (ord e =? 128))%N
                  then 3
                  else 0
              end
        end
  end.

(** [s.lstrip()] *)
Fixpoint lstrip (s : str) : str :=
  match s with
  | "" => ""
  | String _ r =>
      match space_size s with
      | 1 => lstrip r
      | 2 => match r with
             | String _ r1 => lstrip r1
             | "" => s
             end
      | 3 => match r with
             | String _ (String _ r2) => lstrip r2
             | _ => s
             end
      | _ => s
      end
  end.

(** [s.rstrip()]: a suffix made of white space only is dropped. *)
Fixpoint rstrip (s : str) : str :=
  match s with
  | "" => ""
  | String c r => if lstrip s =? "" then "" else String c (rstrip r)
  end.

(** [s.strip()] *)
Definition strip (s : str) : str := rstrip (lstrip s).

(** Exceptions.  Only subclasses of [Exception] are modelled: every
    handler in the sources is [except Exception] (or a subclass). *)
Inductive exn : Type :=
| HTTPError | ConnectionError | ValueError | TypeError | KeyError
| IndexError | AttributeError | JSONDecodeError | ValidationError
| RuntimeError (msg : str).

(** A computation that returns a value or raises. *)
Inductive exc (A : Type) : Type :=
| Val (a : A)
| Raise (e : exn).
Arguments Val {A} a.
Arguments Raise {A} e.

Definition bind {A B} (m : exc A) (k : A -> exc B) : exc B :=
  match m with
  | Val a => k a
  | Raise e => Raise e
  end.

(** [try: m  except Exception: h] *)
Definition try_except {A} (m : exc A) (h : exn -> exc A) : exc A :=
  match m with
  | Val a => Val a
  | Raise e => h e
  end.

Definition returns {A} (m : exc A) : Prop := exists a, m = Val a.

End Py.

Import Py.

Declare Scope exc_scope.
Delimit Scope exc_scope with exc.
Notation "x <- m ;; k" := (Py.bind m (fun x => k))
  (at level 61, m at next level, right associativity) : exc_scope.
Local Open Scope exc_scope.

(* ================================================================= *)
(** ** [urllib.parse]: [quote], [unquote], [urlparse] *)

Module UrlLib.

(** *** [quote] *)

(** [_ALWAYS_SAFE]: the unreserved characters. *)
Definition always_safe (c : ascii) : bool := is_alnum c || mem c "_.-~".

(** The characters a quoter leaves alone: [_ALWAYS_SAFE] and the ASCII
    characters of [safe]. *)
Definition is_safe (safe : str) (c : ascii) : bool :=
  always_safe c || (is_ascii c && mem c safe).

Definition hex_digit (n : N) : ascii :=
  if (n <? 10)%N then ascii_of_N (48 + n) else ascii_of_N (55 + n).

(** ['%{:02X}'.format(b)] *)
Definition percent (c : ascii) : str :=
  String "%" (String (hex_digit (ord c / 16)) (String (hex_digit (ord c mod 16)) "")).

Definition quote_byte (safe : str) (c : ascii) : str :=
  if is_safe safe c then String c "" else percent c.

(** [quote_from_bytes(bs, safe)]: every byte goes through the quoter. *)
Fixpoint quote_from_bytes (safe : str) (bs : str) : str :=
  match bs with
  | "" => ""
  | String c r => quote_byte safe c ++ quote_from_bytes safe r
  end.

(** [quote(string, safe)]: the UTF-8 encoding of [string], quoted. *)
Definition quote_with (safe : str) (string : str) : str :=
  quote_from_bytes safe string.

(** [quote(string)], with the default [safe='/']. *)
Definition quote (string : str) : str := quote_with "/" string.

(** *** [unquote] *)

Definition hex_val (c : ascii) : option N :=
  if is_digit c then Some (ord c - 48)%N
  else if in_range 65 70 c then Some (ord c - 55)%N
  else if in_range 97 102 c then Some (ord c - 87)%N
  else None.

(** One item of [string.split(b'%')] after the first: [_hextobyte] is
    looked up at [item[:2]]; a [KeyError] keeps the ['%']. *)
Definition unquote_item (item : str) : str :=
  match item with
  | String a (String b rest) =>
      match hex_val a, hex_val b with
      | Some h, Some l => String (ascii_of_N (16 * h + l)) rest
      | _, _ => String "%" item
      end
  | _ => String "%" item
  end.

Fixpoint concat_items (items : list str) : str :=
  match items with
  | [] => ""
  | i :: t => unquote_item i ++ concat_items t
  end.

(** [unquote_to_bytes(string)] *)
Definition unquote_to_bytes (string : str) : str :=
  match split_on "%" string with
  | [] => ""
  | first :: items => first ++ concat_items items
  end.

(** *** [bytes.decode('utf-8', 'replace')]

    The decoder reads one byte at a time.  Inside a multi-byte sequence
    it remembers the bytes read so far and the range the next byte
    must fall in (the well-formed sequences of the Unicode standard:
    no overlong form, no surrogate, nothing above U+10FFFF).  A byte
    that cannot continue the sequence ends it: the bytes read so far
    become one U+FFFD and the offending byte starts afresh. *)

Inductive utf8_state : Type :=
| Start
| Need (more : nat) (lo hi : N) (seen : str).

(** U+FFFD *)
Definition replacement : str :=
  String (ascii_of_N 239) (String (ascii_of_N 191) (String (ascii_of_N 189) "")).

(** Reading [c] at the start of a character: the output and the next
    state, and whether [c] was accepted. *)
Definition start_step (c : ascii) : bool * str * utf8_state :=
  let one := String c "" in
  if is_ascii c then (true, one, Start)
  else if in_range 194 223 c then (true, "", Need 0 128 191 one)
  else if (ord c =? 224)%N then (true, "", Need 1 160 191 one)
  else if (ord c =? 237)%N then (true, "", Need 1 128 159 one)
  else if in_range 225 239 c then (true, "", Need 1 128 191 one)
  else if (ord c =? 240)%N then (true, "", Need 2 144 191 one)
  else if in_range 241 243 c then (true, "", Need 2 128 191 one)
  else if (ord c =? 244)%N then (true, "", Need 2 128 143 one)
  else (false, replacement, Start).

Definition step (st : utf8_state) (c : ascii) : bool * str * utf8_state :=
  match st with
  | Start => start_step c
  | Need more lo hi seen =>
      if in_range lo hi c then
        match more with
        | O => (true, seen ++ String c "", Start)
        | S m => (true, "", Need m 128 191 (seen ++ String c ""))
        end
      else
        let '(_, out, st') := start_step c in
        (false, replacement ++ out, st')
  end.

(** At the end of the input an unfinished sequence is one U+FFFD. *)
Definition finish (st : utf8_state) : str :=
  match st with
  | Start => ""
  | Need _ _ _ _ => replacement
  end.

Fixpoint decode_from (st : utf8_state) (bs : str) : str :=
  match bs with
  | "" => finish st
  | String c r => let '(_, out, st') := step st c in out ++ decode_from st' r
  end.

Definition decode_replace (bs : str) : str := decode_from Start bs.

(** Well-formed UTF-8: the decoder never has to replace anything.  Every
    Python [str] that [encode('utf-8')] accepts has such an encoding. *)
Fixpoint well_formed_from (st : utf8_state) (bs : str) : bool :=
  match bs with
  | "" => match st with Start => true | Need _ _ _ _ => false end
  | String c r => let '(ok, _, st') := step st c in ok && well_formed_from st' r
  end.

Definition valid_utf8 (s : str) : bool := well_formed_from Start s.

(** [unquote(string)]: [_asciire.split] cuts [string] into runs of ASCII
    characters and runs of other characters; each ASCII run is unquoted
    to bytes and decoded, the other runs are kept.  [run] is the ASCII
    run being read. *)
Definition unquote_run (run : str) : str :=
  decode_replace (unquote_to_bytes run).

Fixpoint unquote_runs (run : str) (s : str) : str :=
  match s with
  | "" => unquote_run run
  | String c r =>
      if is_ascii c then unquote_runs (run ++ String c "") r
      else unquote_run run ++ String c (unquote_runs "" r)
  end.

Definition unquote (string : str) : str :=
  if negb (mem "%" string) then string
  else unquote_runs "" string.

(** *** [urlsplit] and [urlparse] *)

Record ParseResult : Type := {
  scheme : str;
  netloc : str;
  path : str;
  params : str;
  query : str;
  fragment : str
}.

(** Two validations of [urlsplit] are taken as given: the check of a
    netloc with brackets (an IPv6 or IPvFuture literal, through
    [ipaddress]) and the NFKC check of a non-ASCII netloc
    ([_checknetloc], through [unicodedata]).  Each tells whether
    [ValueError] is raised. *)
Record HostChecks : Type := {
  invalid_bracketed_netloc : str -> bool;
  nfkc_rejects : str -> bool
}.

Definition scheme_char (c : ascii) : bool := is_alnum c || mem c "+-.".

Definition uses_params : list str :=
  [""; "ftp"; "hdl"; "prospero"; "http"; "imap"; "https"; "shttp"; "rtsp";
   "rtspu"; "sip"; "sips"; "mms"; "sftp"; "tel"].

Definition in_list (s : str) (l : list str) : bool :=
  existsb (String.eqb s) l.

(** [_WHATWG_C0_CONTROL_OR_SPACE] *)
Definition c0_or_space (c : ascii) : bool := (ord c <=? 32)%N.

(** [_UNSAFE_URL_BYTES_TO_REMOVE]: tab, carriage return, line feed. *)
Definition unsafe_url_byte (c : ascii) : bool :=
  ((ord c =? 9) || (ord c =? 13) || (ord c =? 10))%N.

(** [i = url.find(':')], the test on [url[:i]], and the cut. *)
Definition split_scheme (url : str) : str * str :=
  match partition ":" url with
  | Some (String c0 pre as before, rest) =>
      if is_ascii c0 && is_alpha c0 && all scheme_char before
      then (lower before, rest)
      else ("", url)
  | _ => ("", url)
  end.

(** [_splitnetloc(url, 2)] on the text after ["//"]. *)
Definition _splitnetloc (after : str) : str * str :=
  span (fun c => negb (mem c "/?#")) after.

(** The bracket checks on the netloc: whether [ValueError] is raised. *)
Definition netloc_brackets_raise (hc : HostChecks) (netloc : str) : bool :=
  let l := mem "[" netloc in
  let r := mem "]" netloc in
  (l && negb r) || (r && negb l)
  || (l && r && invalid_bracketed_netloc hc netloc).

(** [_checknetloc(netloc)]: whether [ValueError] is raised. *)
Definition _checknetloc_raises (hc : HostChecks) (netloc : str) : bool :=
  if negb (truthy netloc) || all is_ascii netloc then false
  else nfkc_rejects hc netloc.

(** [url.split(c, 1)] when [c in url]. *)
Definition cut (c : ascii) (url : str) : str * str :=
  match partition c url with
  | Some (a, b) => (a, b)
  | None => (url, "")
  end.

(** The end of [urlsplit], once scheme and netloc are known: fragment,
    query, [_checknetloc]. *)
Definition split_rest (hc : HostChecks) (scheme netloc url : str)
  : exc ParseResult :=
  let '(url, fragment) := cut "#" url in
  let '(url, query) := cut "?" url in
  if _checknetloc_raises hc netloc then Raise ValueError
  else Val {| scheme := scheme; netloc := netloc; path := url;
              params := ""; query := query; fragment := fragment |}.

Definition urlsplit (hc : HostChecks) (url : str) : exc ParseResult :=
  let url := snd (span c0_or_space url) in
  let url := filter (fun c => negb (unsafe_url_byte c)) url in
  let '(scheme, url) := split_scheme url in
  if prefix "//" url then
    let '(netloc, url) := _splitnetloc (drop 2 url) in
    if netloc_brackets_raise hc netloc then Raise ValueError
    else split_rest hc scheme netloc url
  else split_rest hc scheme "" url.

(** [_splitparams(url)]: the parameters follow the first [';'] of the
    last path segment. *)
Definition _splitparams (url : str) : str * str :=
  if mem "/" url then
    match rpartition "/" url with
    | Some (dir, last) =>
        match partition ";" last with
        | Some (a, b) => (dir ++ "/" ++ a, b)
        | None => (url, "")
        end
    | None => (url, "")
    end
  else cut ";" url.

Definition urlparse (hc : HostChecks) (url : str) : exc ParseResult :=
  r <- urlsplit hc url ;;
  if in_list (scheme r) uses_params && mem ";" (path r) then
    let '(p, ps) := _splitparams (path r) in
    Val {| scheme := scheme r; netloc := netloc r; path := p;
           params := ps; query := query r; fragment := fragment r |}
  else Val r.

End UrlLib.

Import UrlLib.

(* ================================================================= *)
(** ** [utils/wikipedia_scraper.py] *)

Module WikipediaScraper.

(** What [_session.get] does with a request: it raises (no connection,
    timeout, retries exhausted) or returns a response. *)
Inductive http_result : Type :=
| Failed (e : exn)
| Response (status_code : Z) (text : str).

(** A request of the shared session: the URL and the [Accept] header. *)
Record request : Type := {
  req_url : str;
  req_accept : str
}.

(** The session's default header and the one of the mobile-HTML tier. *)
Definition accept_default : str := "text/html,*/*".
Definition accept_html : str := "text/html".

(** The outside world of the scraper: the web, seen through the shared
    session, and BeautifulSoup.  [mobile_texts html] stands for the texts
    [el.get_text(strip=True)] of the elements selected by
    ["h1,h2,h3,h4,h5,h6,p,li"] in the parsed document once the elements
    matching [REMOVE_SELECTORS] are decomposed; [generic_texts html] is
    the same inside the container ["#mw-content-text .mw-parser-output"],
    or inside the whole document when there is no such container. *)
Record World : Type := {
  checks : HostChecks;
  session_get : request -> http_result;
  mobile_texts : str -> exc (list str);
  generic_texts : str -> exc (list str)
}.

Definition REMOVE_SELECTORS : list str :=
  [".navbox"; ".infobox"; ".sidebar"; ".reference"; ".mw-editsection";
   ".mw-jump-link"; ".toc"; ".catlinks"; ".mw-cite-backlink"].

(** What a retrieval does, in order. *)
Inductive event : Type :=
| PlainTextTier (title : str)
| MobileHtmlTier (title : str)
| Sleep
| GenericScrapeTier (url : str).

Definition newline : ascii := ascii_of_N 10.
Definition blank_line : str := String newline (String newline "").

(** [_extract_title_from_wiki_url]: [None] as soon as [urlparse] raises. *)
Definition _extract_title_from_wiki_url (hc : HostChecks) (url : str) : option str :=
  match urlparse hc url with
  | Raise _ => None
  | Val parsed =>
      if negb (contains "wikipedia.org" (netloc parsed)) then None
      else
        let parts := split_on "/" (path parsed) in
        if (3 <=? length parts)%nat && (nth 1 parts "" =? "wiki")
        then Some (unquote (nth 2 parts ""))
        else None
  end.

Definition plain_url (title : str) : str :=
  "https://en.wikipedia.org/api/rest_v1/page/plain/" ++ title.

Definition mobile_html_url (title : str) : str :=
  "https://en.wikipedia.org/api/rest_v1/page/mobile-html/" ++ title.

(** [_wiki_rest_plain_text] *)
Definition _wiki_rest_plain_text (w : World) (title : str) : exc (option str) :=
  match session_get w {| req_url := plain_url title; req_accept := accept_default |} with
  | Failed e => Raise e
  | Response status_code text =>
      if (status_code =? 200)%Z && truthy (strip text) then Val (Some text)
      else Val None
  end.

(** The collection loop shared by the two HTML tiers: the texts longer
    than 10 characters, joined by blank lines; [None] without any. *)
Definition keep_block (text : str) : bool := truthy text && (10 <? len text)%nat.

Definition join_blocks (texts : list str) : option str :=
  match List.filter keep_block texts with
  | [] => None
  | blocks => Some (join blank_line blocks)
  end.

(** [_wiki_rest_mobile_html] *)
Definition _wiki_rest_mobile_html (w : World) (title : str) : exc (option str) :=
  match session_get w {| req_url := mobile_html_url title; req_accept := accept_html |} with
  | Failed e => Raise e
  | Response status_code text =>
      if negb (status_code =? 200)%Z then Val None
      else texts <- mobile_texts w text ;; Val (join_blocks texts)
  end.

(** [r.raise_for_status()] *)
Definition raise_for_status (status_code : Z) : exc unit :=
  if ((400 <=? status_code) && (status_code <? 600))%Z then Raise HTTPError
  else Val tt.

(** [_generic_html_scrape] *)
Definition _generic_html_scrape (w : World) (url : str) : exc (option str) :=
  match session_get w {| req_url := url; req_accept := accept_default |} with
  | Failed e => Raise e
  | Response status_code text =>
      _ <- raise_for_status status_code ;;
      texts <- generic_texts w text ;;
      Val (join_blocks texts)
  end.

(** A tier of the Wikipedia branch, inside its [try]: the text when the
    tier returned a non-empty one, [None] when it returned nothing or
    raised ([except ...: pass]). *)
Definition tier_text (r : exc (option str)) : option str :=
  match r with
  | Val (Some txt) => if truthy txt then Some txt else None
  | _ => None
  end.

(** The last resort, with its handlers that return [None]. *)
Definition generic_tier (w : World) (url : str) : list event * exc (option str) :=
  ([GenericScrapeTier url],
   try_except (_generic_html_scrape w url) (fun _ => Val None)).

(** The branch [if title:]: plain text, then mobile HTML, each inside
    its [try]; then the pause and the generic scrape. *)
Definition wikipedia_tiers (w : World) (url title : str)
  : list event * exc (option str) :=
  match tier_text (_wiki_rest_plain_text w title) with
  | Some txt => ([PlainTextTier title], Val (Some txt))
  | None =>
      match tier_text (_wiki_rest_mobile_html w title) with
      | Some txt => ([PlainTextTier title; MobileHtmlTier title], Val (Some txt))
      | None =>
          let '(evs, r) := generic_tier w url in
          (PlainTextTier title :: MobileHtmlTier title :: Sleep :: evs, r)
      end
  end.

(** [scrape_wikipedia_content]: the events of the retrieval and its
    outcome. *)
Definition scrape_wikipedia_content (w : World) (url : str)
  : list event * exc (option str) :=
  match _extract_title_from_wiki_url (checks w) url with
  | Some title =>
      if truthy title then wikipedia_tiers w url title
      else generic_tier w url
  | None => generic_tier w url
  end.

End WikipediaScraper.

(* ================================================================= *)
(** ** JSON values and [utils/models.py] *)

Module Json.

(** What [json.loads] and [Response.json] produce.  A number is an
    [int], of any size, or a [float]; a [float] is kept by the 64 bits
    of its IEEE 754 encoding (sign, exponent, fraction), so that
    infinities and NaN, which [json.loads] accepts, are values too. *)
Inductive json : Type :=
| JNull
| JBool (b : bool)
| JNum (n : Z)
| JFloat (bits : N)
| JStr (s : str)
| JArr (items : list json)
| JObj (fields : list (str * json)).

(** [x == 0.0] for a float: all the bits after the sign are zero. *)
Definition float_is_zero (bits : N) : bool :=
  (bits mod 9223372036854775808 =? 0)%N.

(** Truth value: [if v:]. *)
Definition truthy_json (v : json) : bool :=
  match v with
  | JNull => false
  | JBool b => b
  | JNum n => negb (n =? 0)%Z
  | JFloat bits => negb (float_is_zero bits)
  | JStr s => truthy s
  | JArr items => negb (Nat.eqb (length items) 0)
  | JObj fields => negb (Nat.eqb (length fields) 0)
  end.

Fixpoint lookup (key : str) (fields : list (str * json)) : option json :=
  match fields with
  | [] => None
  | (k, v) :: rest => if k =? key then Some v else lookup key rest
  end.

(** [v.get(key)]: only a dict has the method. *)
Definition get (v : json) (key : str) : exc (option json) :=
  match v with
  | JObj fields => Val (lookup key fields)
  | _ => Raise AttributeError
  end.

(** [v.get(key, default)] *)
Definition get_default (v : json) (key : str) (default : json) : exc json :=
  o <- get v key ;;
  Val (match o with Some x => x | None => default end).

(** [v[key]] for a string key. *)
Definition subscript (v : json) (key : str) : exc json :=
  match v with
  | JObj fields =>
      match lookup key fields with
      | Some x => Val x
      | None => Raise KeyError
      end
  | _ => Raise TypeError
  end.

(** The code points of a string, one string each. *)
Fixpoint code_points (s : str) : list str :=
  match s with
  | "" => []
  | String c r =>
      let rest := code_points r in
      match r with
      | "" => [String c ""]
      | String d _ =>
          if is_cont d then
            match rest with
            | h :: t => String c h :: t
            | [] => [String c ""]
            end
          else String c "" :: rest
      end
  end.

(** [for item in v]: the items a loop over [v] visits. *)
Definition iterate (v : json) : exc (list json) :=
  match v with
  | JArr items => Val items
  | JObj fields => Val (List.map (fun kv => JStr (fst kv)) fields)
  | JStr s => Val (List.map JStr (code_points s))
  | _ => Raise TypeError
  end.

(** [key in v] for a string [key]: a key of a dict, an element of a
    list, a substring of a string. *)
Definition has (key : str) (v : json) : exc bool :=
  match v with
  | JObj fields =>
      Val (match lookup key fields with Some _ => true | None => false end)
  | JArr items =>
      Val (existsb (fun x => match x with JStr s => s =? key | _ => false end) items)
  | JStr s => Val (contains key s)
  | _ => Raise TypeError
  end.

(** [len(v)] *)
Definition length_of (v : json) : exc nat :=
  match v with
  | JArr items => Val (length items)
  | JObj fields => Val (length fields)
  | JStr s => Val (len s)
  | _ => Raise TypeError
  end.

(** [v[0]] *)
Definition first_of (v : json) : exc json :=
  match v with
  | JArr (x :: _) => Val x
  | JArr [] => Raise IndexError
  | JStr s =>
      match code_points s with
      | c :: _ => Val (JStr c)
      | [] => Raise IndexError
      end
  | JObj _ => Raise KeyError
  | _ => Raise TypeError
  end.

(** [v[:200]]: a string and a list have slices. *)
Definition first_200 (v : json) : exc json :=
  match v with
  | JStr s => Val (JStr (take 200 s))
  | JArr items => Val (JArr (firstn 200 items))
  | _ => Raise TypeError
  end.

(** The text of a value where the code needs a string: [re.search]
    raises [TypeError] on anything else, [v.lower()] [AttributeError]. *)
Definition text_of (e : exn) (v : json) : exc str :=
  match v with
  | JStr s => Val s
  | _ => Raise e
  end.

(** [l[:n]] for any integer [n]: a negative [n] counts from the end. *)
Definition slice_to {A} (n : Z) (l : list A) : list A :=
  if (0 <=? n)%Z then firstn (Z.to_nat n) l
  else firstn (length l - Z.to_nat (- n)) l.

(** [class ClaimResult(BaseModel)]: [label: str], [evidence: str]. *)
Record ClaimResult : Type := {
  label : str;
  evidence : str
}.

(** [ClaimResult(label=l, evidence=e)]: pydantic accepts strings only
    for a [str] field; anything else is a [ValidationError]. *)
Definition make_ClaimResult (l e : json) : exc ClaimResult :=
  match l, e with
  | JStr ls, JStr es => Val {| label := ls; evidence := es |}
  | _, _ => Raise ValidationError
  end.

End Json.

Import Json.

(* ================================================================= *)
(** ** [utils/google_custom_search.py] *)

Module GoogleCustomSearch.

(** What [requests.get] on the search endpoint does: it raises, or it
    returns a response with a status and a body that [resp.json()]
    decodes or fails to decode. *)
Inductive search_reply : Type :=
| GetFailed (e : exn)
| Reply (status_code : Z) (body : exc json).

(** The search engine: a reply for every query [q]. *)
Definition SearchEngine : Type := str -> search_reply.

(** [[item.get("link") for item in items if item.get("link")]] *)
Fixpoint links (items : list json) : exc (list json) :=
  match items with
  | [] => Val []
  | item :: rest =>
      l <- get item "link" ;;
      match l with
      | Some v =>
          if truthy_json v then (ls <- links rest ;; Val (v :: ls))
          else links rest
      | None => links rest
      end
  end.

(** The start of the [try]: the ranked links of the reply, that is
    the non-empty [link] of every item, in the order of the items. *)
Definition ranked_links (reply : search_reply) : exc (list json) :=
  match reply with
  | GetFailed e => Raise e
  | Reply status_code body =>
      _ <- WikipediaScraper.raise_for_status status_code ;;
      data <- body ;;
      items <- get_default data "items" (JArr []) ;;
      its <- iterate items ;;
      links its
  end.

(** The body of the [try]: [urls[:n] if urls else None]. *)
Definition search_urls (reply : search_reply) (n : Z) : exc (option (list json)) :=
  urls <- ranked_links reply ;;
  Val (match urls with
       | [] => None
       | _ => Some (slice_to n urls)
       end).

(** [get_first_n_results_urls(query, n)] *)
Definition get_first_n_results_urls (engine : SearchEngine) (query : str) (n : Z)
  : exc (option (list json)) :=
  try_except (search_urls (engine query) n) (fun _ => Val None).

End GoogleCustomSearch.

(* ================================================================= *)
(** ** [utils/constants.py], [utils/claims.py], [utils/factcheck.py] *)

Module Constants.

Definition dq : str := String (ascii_of_N 34) "".
Definition nl : str := String (ascii_of_N 10) "".

Definition MODEL_CLAIM_EXTRACTION : str := "gpt-5-nano".
Definition MODEL_CLAIM_OPTIMIZATION : str := "gpt-5-mini".
Definition MODEL_FACTCHECK : str := "gpt-5-nano".
Definition MODEL_WIKI_TARGET : str := "gpt-5-nano".

(** [PROMPT_EXTRACT_CLAIMS.format(query=query)] *)
Definition PROMPT_EXTRACT_CLAIMS (query : str) : str :=
  "Strictly extract claims and facts that could be fact-checked from the following query. "
  ++ "Return the claims as a JSON array of strings. If no claims are present, such as strict questions, "
  ++ "return an empty array: " ++ dq ++ query ++ dq.

(** [PROMPT_OPTIMIZE_CLAIM.format(claim=claim)] *)
Definition PROMPT_OPTIMIZE_CLAIM (claim : str) : str :=
  "Rewrite the following claim such that the core assertion of the claim can be easily "
  ++ "fact checked in a relevant article without requiring addtional context. "
  ++ "Return a single optimized claim. Claim: " ++ claim.

(** [PROMPT_WIKI_ARTICLE_NAME.format(claim=claim)] *)
Definition PROMPT_WIKI_ARTICLE_NAME (claim : str) : str :=
  "Return the name of the wikipedia article that contains the answer to the claim "
  ++ dq ++ claim ++ dq.

(** [PROMPT_FACTCHECK.format(claim=claim, scraped=scraped)] *)
Definition PROMPT_FACTCHECK (claim scraped : str) : str :=
  "Based on the following scraped content from a web page, please analyze the claim and provide:" ++ nl
  ++ "1. A label of either " ++ dq ++ "True" ++ dq ++ " or " ++ dq ++ "False" ++ dq
  ++ " based on whether the claim is supported by the content" ++ nl
  ++ "2. A single contiguous block of text from the article that verifies or disproves the claim" ++ nl ++ nl
  ++ "IMPORTANT: The evidence must be a concise, single, unbroken string of text directly copied from the scraped content. "
  ++ "Do not combine multiple separate sentences or paragraphs. Find the most relevant and concise single block of text that "
  ++ "directly verifies or disproves the claim." ++ nl ++ nl
  ++ "Return your response in this exact JSON format:" ++ nl
  ++ "{" ++ dq ++ "label" ++ dq ++ ": " ++ dq ++ "True" ++ dq ++ " or " ++ dq ++ "False" ++ dq ++ ", "
  ++ dq ++ "evidence" ++ dq ++ ": " ++ dq ++ "single contiguous block of text from the article" ++ dq ++ "}" ++ nl ++ nl
  ++ "Claim: " ++ dq ++ claim ++ dq ++ nl ++ nl
  ++ "Scraped Content:" ++ nl
  ++ scraped.

End Constants.

Module OpenAIClient.

(** What [client.responses.create(model=..., input=prompt)] does: it
    raises, or it returns a response whose [output_text] is read with
    [getattr(resp, "output_text", None)]. *)
Inductive gateway_reply : Type :=
| GatewayRaises (e : exn)
| GatewayReturns (output_text : option str).

(** The gateway: a reply for every model name and prompt.  The client
    itself is built from settings validated at start-up. *)
Definition Gateway : Type := str -> str -> gateway_reply.

(** [resp = client.responses.create(...); getattr(resp, "output_text", None)] *)
Definition output_text_of (reply : gateway_reply) : exc (option str) :=
  match reply with
  | GatewayRaises e => Raise e
  | GatewayReturns o => Val o
  end.

(** [x or ""] *)
Definition or_empty (o : option str) : str :=
  match o with
  | Some s => if truthy s then s else ""
  | None => ""
  end.

End OpenAIClient.

Module Claims.
Import Constants OpenAIClient.

(** [extract_claims_from_query]; [validate_claims] stands for
    [ExtractedClaims.model_validate_json(raw).root]. *)
Definition extract_claims_from_query
  (gw : Gateway) (validate_claims : str -> exc (list str)) (query : str)
  : exc (list str) :=
  let prompt := PROMPT_EXTRACT_CLAIMS query in
  try_except
    (raw <- output_text_of (gw MODEL_CLAIM_EXTRACTION prompt) ;;
     match raw with
     | None => Val []
     | Some raw => if negb (truthy raw) then Val [] else validate_claims raw
     end)
    (fun _ => Val []).

(** [optimize_claim] *)
Definition optimize_claim (gw : Gateway) (claim : str) : exc str :=
  let prompt := PROMPT_OPTIMIZE_CLAIM claim in
  try_except
    (o <- output_text_of (gw MODEL_CLAIM_OPTIMIZATION prompt) ;;
     Val (or_empty o))
    (fun _ => Val claim).

(** [get_query_for_wiki_article] *)
Definition get_query_for_wiki_article (gw : Gateway) (claim : str) : exc str :=
  let prompt := PROMPT_WIKI_ARTICLE_NAME claim in
  try_except
    (o <- output_text_of (gw MODEL_WIKI_TARGET prompt) ;;
     Val (or_empty o))
    (fun _ => Val "").

End Claims.

Module Factcheck.
Import Constants OpenAIClient.

(** [find_answer_in_article]; [validate_verdict] stands for
    [ClaimResult.model_validate_json]. *)
Definition find_answer_in_article
  (gw : Gateway) (validate_verdict : str -> exc ClaimResult)
  (scraped_content claim : str) : exc (option ClaimResult) :=
  let prompt := PROMPT_FACTCHECK claim scraped_content in
  try_except
    (text <- output_text_of (gw MODEL_FACTCHECK prompt) ;;
     match text with
     | None => Val None
     | Some text =>
         if negb (truthy text) then Val None
         else
           try_except
             (r <- validate_verdict text ;; Val (Some r))
             (fun _ =>
                r <- make_ClaimResult (JStr "False") (JStr text) ;; Val (Some r))
     end)
    (fun _ => Val None).

(** [build_text_fragment_link] *)
Definition build_text_fragment_link (url : str) (evidence : option str) : str :=
  match evidence with
  | Some e => if truthy e then url ++ "#:~:text=" ++ quote e else url
  | None => url
  end.

End Factcheck.

(* ================================================================= *)
(** ** [utils/local_openai_client.py], [utils/local_claims.py],
       [utils/local_factcheck_full.py] *)

Module LocalOpenAIClient.
Import Constants.

(** What [requests.post] on the chat endpoint does: it raises, or it
    returns a response with a status and a body that [response.json()]
    decodes or fails to decode. *)
Inductive chat_reply : Type :=
| PostFailed (e : exn)
| ChatResponse (status_code : Z) (body : exc json).

(** The local model server: a reply for every prompt and [max_tokens]. *)
Definition LocalModel : Type := str -> N -> chat_reply.

(** Library and helper functions the client relies on: [json.loads],
    and the part of [_select_relevant_content] that ranks the paragraphs
    of a long page (a pure function of the claim and the content). *)
Record Helpers : Type := {
  json_loads : str -> exc json;
  select_paragraphs : str -> str -> str
}.

(** The body of the [try] of [_make_request]: the content of the first
    choice, [None] when the body has no choice. *)
Definition message_content (reply : chat_reply) : exc (option json) :=
  match reply with
  | PostFailed e => Raise e
  | ChatResponse status_code body =>
      _ <- WikipediaScraper.raise_for_status status_code ;;
      data <- body ;;
      present <- has "choices" data ;;
      if present then
        choices <- subscript data "choices" ;;
        n <- length_of choices ;;
        if (0 <? n)%nat then
          choice <- first_of choices ;;
          message <- subscript choice "message" ;;
          content <- subscript message "content" ;;
          Val (Some content)
        else Val None
      else Val None
  end.

(** [_make_request] *)
Definition _make_request (m : LocalModel) (prompt : str) (max_tokens : N)
  : exc (option json) :=
  try_except (message_content (m prompt max_tokens)) (fun _ => Val None).

Definition extract_prompt (query : str) : str :=
  "Strictly extract claims and facts that could be fact-checked from the following query. " ++ nl
  ++ "Return the claims as a JSON array of strings. If no claims are present, such as strict questions, " ++ nl
  ++ "return an empty array: " ++ dq ++ query ++ dq ++ nl ++ nl
  ++ "Respond with only the JSON array, no other text.".

Definition optimize_prompt (claim : str) : str :=
  "Rewrite the following claim such that the core assertion of the claim can be easily " ++ nl
  ++ "fact checked in a relevant article without requiring additional context. " ++ nl
  ++ "Return a single optimized claim. Claim: " ++ claim ++ nl ++ nl
  ++ "Respond with only the optimized claim, no other text.".

Definition article_prompt (claim : str) : str :=
  "Return the name of the wikipedia article that contains the answer to the claim "
  ++ dq ++ claim ++ dq ++ nl ++ nl
  ++ "Respond with only the article name, no other text.".

Definition factcheck_prompt (claim truncated_content : str) : str :=
  "Based on the following scraped content from a web page, please analyze the claim and provide:" ++ nl
  ++ "1. A label of either " ++ dq ++ "True" ++ dq ++ " or " ++ dq ++ "False" ++ dq
  ++ " based on whether the claim is supported by the content" ++ nl
  ++ "2. A single contiguous block of text from the article that verifies or disproves the claim" ++ nl ++ nl
  ++ "IMPORTANT: The evidence must be a concise, single, unbroken string of text directly copied from the scraped content. " ++ nl
  ++ "Do not combine multiple separate sentences or paragraphs. Find the most relevant and concise single block of text that " ++ nl
  ++ "directly verifies or disproves the claim." ++ nl ++ nl
  ++ "Return your response in this exact JSON format:" ++ nl
  ++ "{" ++ dq ++ "label" ++ dq ++ ": " ++ dq ++ "True" ++ dq ++ " or " ++ dq ++ "False" ++ dq ++ ", "
  ++ dq ++ "evidence" ++ dq ++ ": " ++ dq ++ "single contiguous block of text from the article" ++ dq ++ "}" ++ nl ++ nl
  ++ "Claim: " ++ dq ++ claim ++ dq ++ nl ++ nl
  ++ "Scraped Content:" ++ nl
  ++ truncated_content.

(** The text up to the first [']'], when it comes before any line feed:
    what [.*?\]] matches. *)
Fixpoint until_bracket (s : str) : option str :=
  match s with
  | "" => None
  | String c r =>
      if Ascii.eqb c "]" then Some ""
      else if Ascii.eqb c (ascii_of_N 10) then None
      else match until_bracket r with
           | Some body => Some (String c body)
           | None => None
           end
  end.

(** [re.search(r'\[.*?\]', response)]: the leftmost match. *)
Fixpoint search_array (s : str) : option str :=
  match s with
  | "" => None
  | String c r =>
      if Ascii.eqb c "[" then
        match until_bracket r with
        | Some body => Some ("[" ++ body ++ "]")
        | None => search_array r
        end
      else search_array r
  end.

(** [extract_claims] *)
Definition extract_claims (m : LocalModel) (h : Helpers) (query : str)
  : exc (list json) :=
  response <- _make_request m (extract_prompt query) 500%N ;;
  match response with
  | None => Val []
  | Some response =>
      if negb (truthy_json response) then Val []
      else
        try_except
          (text <- text_of TypeError response ;;
           match search_array text with
           | Some found =>
               claims <- json_loads h found ;;
               Val (match claims with JArr l => l | _ => [] end)
           | None => Val []
           end)
          (fun _ => Val [])
  end.

(** [response if response else claim] *)
Definition or_claim (response : option json) (claim : str) : json :=
  match response with
  | Some r => if truthy_json r then r else JStr claim
  | None => JStr claim
  end.

(** [optimize_claim] *)
Definition optimize_claim (m : LocalModel) (claim : str) : exc json :=
  response <- _make_request m (optimize_prompt claim) 200%N ;;
  Val (or_claim response claim).

(** [get_wiki_article_name] *)
Definition get_wiki_article_name (m : LocalModel) (claim : str) : exc json :=
  response <- _make_request m (article_prompt claim) 100%N ;;
  Val (or_claim response claim).

(** [_select_relevant_content], with [max_length = 8000]. *)
Definition _select_relevant_content (h : Helpers) (claim content : str) : str :=
  if (N.of_nat (len content) <=? 8000)%N then content
  else select_paragraphs h claim content.

(** The text after the first occurrence of [needle]. *)
Fixpoint after_first (needle hay : str) : option str :=
  if prefix needle hay then Some (drop (String.length needle) hay)
  else match hay with
       | "" => None
       | String _ r => after_first needle r
       end.

Definition quoted (word : str) : str := dq ++ word ++ dq.

(** Between two braces: the quoted word [label], then the quoted word
    [evidence]. *)
Definition label_then_evidence (segment : str) : bool :=
  match after_first (quoted "label") segment with
  | Some rest => contains (quoted "evidence") rest
  | None => false
  end.

(** [re.search] of a brace, characters other than a closing brace around
    the quoted words [label] and [evidence], and a closing brace: the
    leftmost opening brace whose text up to the next closing brace has
    the two words in that order. *)
Fixpoint search_verdict (s : str) : option str :=
  match s with
  | "" => None
  | String c r =>
      if Ascii.eqb c "{" then
        match partition "}" r with
        | Some (segment, _) =>
            if label_then_evidence segment then Some ("{" ++ segment ++ "}")
            else search_verdict r
        | None => search_verdict r
        end
      else search_verdict r
  end.

(** One attempt of the evidence pattern at the head of [s]: the quoted
    word [evidence], a colon, white space, and a quoted text without
    quotes; the quoted text is the group. *)
Definition evidence_at (s : str) : option str :=
  if prefix (quoted "evidence" ++ ":") s then
    match lstrip (drop 11 s) with
    | String c r =>
        if Ascii.eqb c (ascii_of_N 34) then
          match partition (ascii_of_N 34) r with
          | Some (group, _) => Some group
          | None => None
          end
        else None
    | "" => None
    end
  else None.

(** [re.search] of the evidence pattern: the leftmost match. *)
Fixpoint search_evidence (s : str) : option str :=
  match evidence_at s with
  | Some group => Some group
  | None =>
      match s with
      | "" => None
      | String _ r => search_evidence r
      end
  end.

(** The fallback of [factcheck_claim]: a label read off the text and an
    evidence. *)
Definition fallback_verdict (response : str) : json :=
  let label :=
    if contains "true" (lower response) then "True"
    else if contains "false" (lower response) then "False"
    else "False" in
  let evidence :=
    match search_evidence response with
    | Some group => group
    | None => take 200 response
    end in
  JObj [("label", JStr label); ("evidence", JStr evidence)].

(** [factcheck_claim] *)
Definition factcheck_claim (m : LocalModel) (h : Helpers) (claim scraped_content : str)
  : exc (option json) :=
  let truncated_content := _select_relevant_content h claim scraped_content in
  response <- _make_request m (factcheck_prompt claim truncated_content) 1000%N ;;
  match response with
  | None => Val None
  | Some response =>
      if negb (truthy_json response) then Val None
      else
        parsed <- try_except
                    (text <- text_of TypeError response ;;
                     match search_verdict text with
                     | Some found => v <- json_loads h found ;; Val (Some v)
                     | None => Val None
                     end)
                    (fun _ => Val None) ;;
        match parsed with
        | Some v => Val (Some v)
        | None =>
            try_except
              (text <- text_of AttributeError response ;;
               Val (Some (fallback_verdict text)))
              (fun _ =>
                 start <- first_200 response ;;
                 Val (Some (JObj [("label", JStr "False"); ("evidence", start)])))
        end
  end.

End LocalOpenAIClient.

Module LocalClaims.
Import LocalOpenAIClient.

(** The three functions of [utils/local_claims.py] hand over to the
    client. *)
Definition extract_claims_from_query (m : LocalModel) (h : Helpers) (query : str)
  : exc (list json) :=
  extract_claims m h query.

Definition optimize_claim (m : LocalModel) (claim : str) : exc json :=
  LocalOpenAIClient.optimize_claim m claim.

Definition get_query_for_wiki_article (m : LocalModel) (claim : str) : exc json :=
  get_wiki_article_name m claim.

End LocalClaims.

Module LocalFactcheckFull.
Import LocalOpenAIClient.

(** [find_answer_in_article] of [utils/local_factcheck_full.py] *)
Definition find_answer_in_article (m : LocalModel) (h : Helpers)
  (scraped_content claim : str) : exc (option ClaimResult) :=
  result <- factcheck_claim m h claim scraped_content ;;
  match result with
  | Some result =>
      if truthy_json result then
        try_except
          (l <- subscript result "label" ;;
           e <- subscript result "evidence" ;;
           r <- make_ClaimResult l e ;;
           Val (Some r))
          (fun _ =>
             e <- get_default result "evidence" (JStr "") ;;
             r <- make_ClaimResult (JStr "False") e ;;
             Val (Some r))
      else Val None
  | None => Val None
  end.

(** [build_text_fragment_link]: the same function as in
    [utils/factcheck.py]. *)
Definition build_text_fragment_link (url : str) (evidence : option str) : str :=
  match evidence with
  | Some e => if truthy e then url ++ "#:~:text=" ++ quote e else url
  | None => url
  end.

End LocalFactcheckFull.

(* ================================================================= *)
(** ** [main.py] and [main_local.py] *)

Module Main.

(** [result.evidence if result else None] *)
Definition evidence_of (result : option ClaimResult) : option str :=
  match result with
  | Some r => Some (evidence r)
  | None => None
  end.

(** The end of the loop body of [process_query]: the claim is judged
    against the retrieved content and the link is built. *)
Definition answer_and_link
  (gw : OpenAIClient.Gateway) (validate_verdict : str -> exc ClaimResult)
  (url content claim : str) : exc (option ClaimResult * str) :=
  result <- Factcheck.find_answer_in_article gw validate_verdict content claim ;;
  Val (result, Factcheck.build_text_fragment_link url (evidence_of result)).

End Main.

Module MainLocal.

(** The functions [main_local.py] imports, as the orchestrator sees
    them: each returns or raises.  A deterministic stub is a function. *)
Record Stages : Type := {
  extract_claims_from_query : str -> exc (list str);
  optimize_claim : str -> exc str;
  get_query_for_wiki_article : str -> exc str;
  get_first_n_results_urls : str -> Z -> exc (option (list str));
  scrape_wikipedia_content : str -> exc (option str);
  find_answer_in_article : str -> str -> exc (option ClaimResult)
}.

(** The dict a claim is turned into.  Its entries [total_time] and
    [timing] are wall-clock durations and are left out. *)
Record Report : Type := {
  claim : str;
  optimized : str;
  article_query : str;
  urls : option (list str);
  result : option ClaimResult
}.

(** A future of the scraping pool: the URL and what its task did. *)
Definition scrape_future : Type := (str * exc (option str))%type.

(** A future of the claim pool: the claim and what its task did. *)
Definition claim_future : Type := (str * exc Report)%type.

(** [as_completed] yields the futures in the order they finish: some
    rearrangement of the submitted ones. *)
Record Completion : Type := {
  scrapes_completed : list scrape_future -> list scrape_future;
  scrapes_completed_perm : forall l, Permutation l (scrapes_completed l);
  claims_completed : list claim_future -> list claim_future;
  claims_completed_perm : forall l, Permutation l (claims_completed l)
}.

(** The loop over [as_completed(future_to_url)]: a non-empty content is
    kept with its URL, a task that raised is reported and skipped. *)
Fixpoint collect_contents (completed : list scrape_future) : list (str * str) :=
  match completed with
  | [] => []
  | (url, Val (Some content)) :: rest =>
      if truthy content then (url, content) :: collect_contents rest
      else collect_contents rest
  | (_, _) :: rest => collect_contents rest
  end.

(** The link printed at the end of [process_single_claim]. *)
Definition printed_link (url : str) (result : option ClaimResult) : str :=
  LocalFactcheckFull.build_text_fragment_link url (Main.evidence_of result).

(** The end of [process_single_claim] with the local model behind
    [find_answer_in_article]: the verdict and the printed link. *)
Definition answer_and_link
  (m : LocalOpenAIClient.LocalModel) (h : LocalOpenAIClient.Helpers)
  (url content claim : str) : exc (option ClaimResult * str) :=
  result <- LocalFactcheckFull.find_answer_in_article m h content claim ;;
  Val (result, printed_link url result).

(** [process_single_claim] *)
Definition process_single_claim (st : Stages) (sch : Completion)
  (claim : str) (top_n_urls : Z) : exc Report :=
  optimized <- optimize_claim st claim ;;
  article_query <- get_query_for_wiki_article st claim ;;
  urls <- get_first_n_results_urls st article_query top_n_urls ;;
  match urls with
  | Some ((_ :: _) as found) =>
      let futures := List.map (fun url => (url, scrape_wikipedia_content st url)) found in
      match collect_contents (scrapes_completed sch futures) with
      | [] =>
          Val {| claim := claim; optimized := optimized;
                 article_query := article_query; urls := urls; result := None |}
      | (url, content) :: _ =>
          result <- find_answer_in_article st content claim ;;
          let link := printed_link url result in
          Val {| claim := claim; optimized := optimized;
                 article_query := article_query; urls := urls; result := result |}
      end
  | _ =>
      Val {| claim := claim; optimized := optimized;
             article_query := article_query; urls := None; result := None |}
  end.

(** The loop of [process_query_sequential]: no handler around a claim. *)
Fixpoint process_each (st : Stages) (sch : Completion)
  (claims : list str) (top_n_urls : Z) : exc (list Report) :=
  match claims with
  | [] => Val []
  | claim :: rest =>
      r <- process_single_claim st sch claim top_n_urls ;;
      rs <- process_each st sch rest top_n_urls ;;
      Val (r :: rs)
  end.

(** [process_query_sequential]: the exit code and the list [results]. *)
Definition process_query_sequential (st : Stages) (sch : Completion)
  (query : str) (top_n_urls : Z) : exc (Z * list Report) :=
  claims <- extract_claims_from_query st query ;;
  match claims with
  | [] => Val (0%Z, [])
  | _ =>
      results <- process_each st sch claims top_n_urls ;;
      Val (0%Z, results)
  end.

(** The loop over [as_completed(future_to_claim)]: a result is
    appended, a task that raised is reported and nothing is appended. *)
Fixpoint collect_results (completed : list claim_future) : list Report :=
  match completed with
  | [] => []
  | (_, Val r) :: rest => r :: collect_results rest
  | (_, Raise _) :: rest => collect_results rest
  end.

(** [process_query_parallel]: the exit code and the list [results]. *)
Definition process_query_parallel (st : Stages) (sch : Completion)
  (query : str) (top_n_urls : Z) : exc (Z * list Report) :=
  claims <- extract_claims_from_query st query ;;
  match claims with
  | [] => Val (0%Z, [])
  | _ =>
      let futures :=
        List.map (fun c => (c, process_single_claim st sch c top_n_urls)) claims in
      Val (0%Z, collect_results (claims_completed sch futures))
  end.

End MainLocal.

(* ================================================================= *)
(** ** [main.py]: the loop of [process_query] *)

Module MainQuery.

(** What the body of the loop does with a claim: it goes on to the next
    claim when the search gives no URL or the retrieval no content;
    otherwise it judges the claim and prints the link. *)
Inductive outcome : Type :=
| NoUrlFound
| NoContent (url : str)
| Answered (url : str) (result : option ClaimResult) (link : str).

(** The body of the loop of [process_query], over the functions
    [main.py] imports: they have the names and signatures of the ones
    [main_local.py] imports.  Only [urls[0]] is retrieved, and there is
    no handler around any call. *)
Definition loop_body (st : MainLocal.Stages) (claim : str) (top_n_urls : Z)
  : exc outcome :=
  optimized <- MainLocal.optimize_claim st claim ;;
  article_query <- MainLocal.get_query_for_wiki_article st claim ;;
  urls <- MainLocal.get_first_n_results_urls st article_query top_n_urls ;;
  match urls with
  | Some (first :: _) =>
      content <- MainLocal.scrape_wikipedia_content st first ;;
      match content with
      | Some content =>
          if truthy content then
            result <- MainLocal.find_answer_in_article st content claim ;;
            Val (Answered first result
                   (Factcheck.build_text_fragment_link first (Main.evidence_of result)))
          else Val (NoContent first)
      | None => Val (NoContent first)
      end
  | _ => Val NoUrlFound
  end.

(** [for claim in claims: ...] *)
Fixpoint for_each_claim (st : MainLocal.Stages) (claims : list str) (top_n_urls : Z)
  : exc (list outcome) :=
  match claims with
  | [] => Val []
  | claim :: rest =>
      o <- loop_body st claim top_n_urls ;;
      os <- for_each_claim st rest top_n_urls ;;
      Val (o :: os)
  end.

(** [process_query]: the exit code, and what the loop did claim by
    claim. *)
Definition process_query (st : MainLocal.Stages) (query : str) (top_n_urls : Z)
  : exc (Z * list outcome) :=
  claims <- MainLocal.extract_claims_from_query st query ;;
  outcomes <- for_each_claim st claims top_n_urls ;;
  Val (0%Z, outcomes).

End MainQuery.

(* ================================================================= *)
(** ** [utils/local_openai_client.py]: the address of the model server *)

Module LocalClientSetup.

(** [s.rstrip(c)] for a one-character [c]: the characters [c] at the end
    of [s] are dropped. *)
Fixpoint rstrip_char (c : ascii) (s : str) : str :=
  match s with
  | "" => ""
  | String d r => if all (Ascii.eqb c) s then "" else String d (rstrip_char c r)
  end.

(** The attributes of a [LocalOpenAIClient]. *)
Record client : Type := {
  base_url : str;
  model : str
}.

(** [LocalOpenAIClient.__init__] *)
Definition __init__ (base_url model : str) : client :=
  {| base_url := rstrip_char "/" base_url; model := model |}.

(** The address [_make_request] posts to. *)
Definition request_url (self : client) : str :=
  base_url self ++ "/v1/chat/completions".

End LocalClientSetup.

(* ================================================================= *)
(** ** [test_full_local_system.py]: the test runner *)

Module FullLocalTest.

(** A line of the data set, as [test_single_claim] reads it. *)
Record TestData : Type := {
  data_id : json;
  data_claim : str;
  data_expected_label : json
}.

(** The text of [result['error']]: one of the runner's own messages, or
    [str(e)] of the exception a stage raised. *)
Inductive error_text : Type :=
| Message (text : str)
| OfException (e : exn).

(** The dict a test is turned into.  Its entry [processing_time] is a
    wall-clock duration and is left out. *)
Record TestResult : Type := {
  test_id : json;
  claim : str;
  expected_label : json;
  predicted_label : option str;
  evidence : option str;
  is_correct : bool;
  error : option error_text;
  article_query : option str;
  urls : option (list str)
}.

(** [v == s] for a string [s]. *)
Definition eq_str (v : json) (s : str) : bool :=
  match v with
  | JStr t => t =? s
  | _ => false
  end.

(** [result['error'] = ...] *)
Definition set_error (e : error_text) (r : TestResult) : TestResult :=
  {| test_id := test_id r; claim := claim r; expected_label := expected_label r;
     predicted_label := predicted_label r; evidence := evidence r;
     is_correct := is_correct r; error := Some e;
     article_query := article_query r; urls := urls r |}.

(** [result['article_query'] = article_query] *)
Definition set_article_query (q : str) (r : TestResult) : TestResult :=
  {| test_id := test_id r; claim := claim r; expected_label := expected_label r;
     predicted_label := predicted_label r; evidence := evidence r;
     is_correct := is_correct r; error := error r;
     article_query := Some q; urls := urls r |}.

(** [result['urls'] = urls] *)
Definition set_urls (found : option (list str)) (r : TestResult) : TestResult :=
  {| test_id := test_id r; claim := claim r; expected_label := expected_label r;
     predicted_label := predicted_label r; evidence := evidence r;
     is_correct := is_correct r; error := error r;
     article_query := article_query r; urls := found |}.

(** The three assignments of the branch [if factcheck_result:]. *)
Definition set_verdict (v : ClaimResult) (r : TestResult) : TestResult :=
  {| test_id := test_id r; claim := claim r; expected_label := expected_label r;
     predicted_label := Some (Json.label v); evidence := Some (Json.evidence v);
     is_correct := eq_str (expected_label r) (Json.label v); error := error r;
     article_query := article_query r; urls := urls r |}.

(** [test_single_claim]: every call of a stage is inside the [try], and
    the handler records [str(e)]. *)
Definition test_single_claim (st : MainLocal.Stages) (test_data : TestData)
  : TestResult :=
  let result :=
    {| test_id := data_id test_data; claim := data_claim test_data;
       expected_label := data_expected_label test_data;
       predicted_label := None; evidence := None; is_correct := false;
       error := None; article_query := None; urls := Some [] |} in
  match MainLocal.optimize_claim st (data_claim test_data) with
  | Raise e => set_error (OfException e) result
  | Val _ =>
      match MainLocal.get_query_for_wiki_article st (data_claim test_data) with
      | Raise e => set_error (OfException e) result
      | Val q =>
          let result := set_article_query q result in
          match MainLocal.get_first_n_results_urls st q 1 with
          | Raise e => set_error (OfException e) result
          | Val found =>
              let result := set_urls found result in
              match found with
              | Some (first :: _) =>
                  match MainLocal.scrape_wikipedia_content st first with
                  | Raise e => set_error (OfException e) result
                  | Val (Some content) =>
                      if truthy content then
                        match MainLocal.find_answer_in_article st content
                                (data_claim test_data) with
                        | Raise e => set_error (OfException e) result
                        | Val (Some v) => set_verdict v result
                        | Val None =>
                            set_error (Message "Failed to get factcheck result") result
                        end
                      else set_error (Message "Failed to scrape content") result
                  | Val None => set_error (Message "Failed to scrape content") result
                  end
              | _ => set_error (Message "No URLs found") result
              end
          end
      end
  end.

(** [if max_tests: dataset = dataset[:max_tests]] *)
Definition select_tests (max_tests : option Z) (dataset : list TestData)
  : list TestData :=
  match max_tests with
  | Some n => if (n =? 0)%Z then dataset else slice_to n dataset
  | None => dataset
  end.

(** [run_tests], on the lines [load_test_dataset] read. *)
Definition run_tests (st : MainLocal.Stages) (max_tests : option Z)
  (dataset : list TestData) : list TestResult :=
  List.map (test_single_claim st) (select_tests max_tests dataset).

(** [sum(1 for r in results if p(r))] *)
Definition count (p : TestResult -> bool) (results : list TestResult) : nat :=
  length (List.filter p results).

(** The counts of the dict [calculate_score] returns.  Its ratios
    ([accuracy], [true_accuracy], [false_accuracy]) and the average
    time are floats and are left out. *)
Record Score : Type := {
  total_tests : nat;
  correct_tests : nat;
  true_expected_count : nat;
  true_correct_count : nat;
  false_expected_count : nat;
  false_correct_count : nat;
  error_count : nat
}.

(** [calculate_score] *)
Definition calculate_score (results : list TestResult) : Score :=
  let true_expected := List.filter (fun r => eq_str (expected_label r) "True") results in
  let false_expected := List.filter (fun r => eq_str (expected_label r) "False") results in
  {| total_tests := length results;
     correct_tests := count is_correct results;
     true_expected_count := length true_expected;
     true_correct_count := count is_correct true_expected;
     false_expected_count := length false_expected;
     false_correct_count := count is_correct false_expected;
     error_count :=
       count (fun r => match error r with Some _ => true | None => false end) results |}.

End FullLocalTest.

(* ================================================================= *)
(** ** Definitions used by the statements and their examples *)

Import WikipediaScraper Constants OpenAIClient LocalOpenAIClient.

(** The bytes of the sequence the decoder is in the middle of. *)
Definition seen_of (st : utf8_state) : str :=
  match st with
  | Start => ""
  | Need _ _ _ seen => seen
  end.

(** The characters [urlparse] leaves in a path: no tab, carriage return
    or line feed, and none of the delimiters of fragment, query and
    parameters. *)
Definition url_plain (c : ascii) : bool :=
  negb (unsafe_url_byte c) && negb (mem c "#?;").

(** The URL of the article of a title: the title is percent-encoded with
    [quote] and appended to the wiki path of the encyclopedia. *)
Definition wiki_url (title : str) : str :=
  "https://en.wikipedia.org/wiki/" ++ quote title.

(** Checks that accept every netloc. *)
Definition no_checks : HostChecks :=
  {| invalid_bracketed_netloc := fun _ => false; nfkc_rejects := fun _ => false |}.

(** A world made of a web: BeautifulSoup finds no text anywhere. *)
Definition world_of (web : request -> http_result) : World :=
  {| checks := no_checks; session_get := web;
     mobile_texts := fun _ => Val []; generic_texts := fun _ => Val [] |}.

(** A web that serves one page [body] at [url] and nothing else. *)
Definition one_page (url body : str) : request -> http_result :=
  fun r => if req_url r =? url then Response 200 body else Response 404 "".

(** A JSON value that is a string. *)
Definition is_string (v : json) : Prop :=
  match v with
  | JStr _ => True
  | _ => False
  end.

(** A JSON value that is an object. *)
Definition is_object (v : json) : Prop :=
  match v with
  | JObj _ => True
  | _ => False
  end.

(** The link an item of a search reply carries: the value of its key
    [link], unless it is missing or false in a test. *)
Definition item_link (item : json) : option json :=
  match item with
  | JObj fields =>
      match lookup "link" fields with
      | Some v => if truthy_json v then Some v else None
      | None => None
      end
  | _ => None
  end.

(** The ranked result links of a reply: the links of its items, in the
    order of the items. *)
Fixpoint reply_links (items : list json) : list json :=
  match items with
  | [] => []
  | item :: rest =>
      match item_link item with
      | Some v => v :: reply_links rest
      | None => reply_links rest
      end
  end.

(** The float [0.5]: sign 0, exponent 1022, fraction 0. *)
Definition half : json := JFloat 4602678819172646912.

(** A search engine whose only item has the number [0.5] for a link. *)
Definition number_link : GoogleCustomSearch.SearchEngine :=
  fun _ => GoogleCustomSearch.Reply 200
             (Val (JObj [("items", JArr [JObj [("link", half)]])])).

(** The search engine of the test suite: two items with a link each. *)
Definition two_links : GoogleCustomSearch.SearchEngine :=
  fun _ => GoogleCustomSearch.Reply 200
             (Val (JObj [("items",
                          JArr [JObj [("link", JStr "http://a")];
                                JObj [("link", JStr "http://b")]])])).

(** A gateway answer that is a JSON object with a number for evidence,
    and what [json.loads] makes of it. *)
Definition verdict_with_number : str :=
  "{" ++ LocalOpenAIClient.quoted "label" ++ ": " ++ LocalOpenAIClient.quoted "True"
  ++ ", " ++ LocalOpenAIClient.quoted "evidence" ++ ": 5}".

Definition loads_verdict_with_number : str -> exc json :=
  fun text =>
    if text =? verdict_with_number
    then Val (JObj [("label", JStr "True"); ("evidence", JNum 5)])
    else Raise JSONDecodeError.

Definition helpers_example : LocalOpenAIClient.Helpers :=
  {| LocalOpenAIClient.json_loads := loads_verdict_with_number;
     LocalOpenAIClient.select_paragraphs := fun _ content => content |}.

(** A local model server that answers every prompt with [content]. *)
Definition answers (content : json) : LocalModel :=
  fun _ _ =>
    ChatResponse 200
      (Val (JObj [("choices",
                   JArr [JObj [("message", JObj [("content", content)])]])])).

(** A validator that rejects its input, as [model_validate_json] does
    with a text that is not JSON. *)
Definition rejects : str -> exc ClaimResult := fun _ => Raise ValidationError.

(** The number of tasks of the claim pool that raised. *)
Fixpoint count_raised (futures : list MainLocal.claim_future) : nat :=
  match futures with
  | [] => 0
  | (_, Val _) :: rest => count_raised rest
  | (_, Raise _) :: rest => S (count_raised rest)
  end.

(** The futures of the claim pool, in the order of submission. *)
Definition claim_futures (st : MainLocal.Stages) (sch : MainLocal.Completion)
  (claims : list str) (top_n_urls : Z) : list MainLocal.claim_future :=
  List.map (fun c => (c, MainLocal.process_single_claim st sch c top_n_urls)) claims.

(** Tasks that finish in the order of submission. *)
Definition in_order : MainLocal.Completion :=
  {| MainLocal.scrapes_completed := fun l => l;
     MainLocal.scrapes_completed_perm := fun l => Permutation_refl l;
     MainLocal.claims_completed := fun l => l;
     MainLocal.claims_completed_perm := fun l => Permutation_refl l |}.

(** Deterministic stubs: two claims are extracted, and the optimizer
    raises on the second one. *)
Definition ada_url : str := "https://en.wikipedia.org/wiki/Ada_Lovelace".
Definition ada_claim : str := "Ada Lovelace was born in 1815.".
Definition ada_verdict : ClaimResult :=
  {| label := "True"; evidence := "born on 10 December 1815" |}.

Definition stub_stages : MainLocal.Stages :=
  {| MainLocal.extract_claims_from_query := fun _ => Val [ada_claim; "Second claim."];
     MainLocal.optimize_claim :=
       fun c => if c =? "Second claim." then Raise (RuntimeError "gateway down")
                else Val c;
     MainLocal.get_query_for_wiki_article := fun _ => Val "Ada Lovelace";
     MainLocal.get_first_n_results_urls := fun _ _ => Val (Some [ada_url]);
     MainLocal.scrape_wikipedia_content :=
       fun _ => Val (Some "Ada Lovelace was born on 10 December 1815.");
     MainLocal.find_answer_in_article := fun _ _ => Val (Some ada_verdict) |}.


(** The same stubs with a retrieval that raises on every URL. *)
Definition no_retrieval_stages : MainLocal.Stages :=
  {| MainLocal.extract_claims_from_query := fun _ => Val [ada_claim; "Second claim."];
     MainLocal.optimize_claim := fun c => Val c;
     MainLocal.get_query_for_wiki_article := fun _ => Val "Ada Lovelace";
     MainLocal.get_first_n_results_urls := fun _ _ => Val (Some [ada_url]);
     MainLocal.scrape_wikipedia_content := fun _ => Raise ConnectionError;
     MainLocal.find_answer_in_article :=
       fun _ c => Val (Some {| label := "True"; evidence := c |}) |}.

(** Tasks that finish in the reverse order of submission. *)
Definition reversed : MainLocal.Completion :=
  {| MainLocal.scrapes_completed := fun l => rev l;
     MainLocal.scrapes_completed_perm := fun l => Permutation_rev l;
     MainLocal.claims_completed := fun l => rev l;
     MainLocal.claims_completed_perm := fun l => Permutation_rev l |}.

Definition ada_report : MainLocal.Report :=
  {| MainLocal.claim := ada_claim; MainLocal.optimized := ada_claim;
     MainLocal.article_query := "Ada Lovelace";
     MainLocal.urls := Some [ada_url]; MainLocal.result := Some ada_verdict |}.

(** The plain-text tier gives nothing: the request fails, or the status
    is not 200, or the body is blank. *)
Definition plain_tier_fails (w : World) (title : str) : Prop :=
  match session_get w {| req_url := plain_url title; req_accept := accept_default |} with
  | Failed _ => True
  | Response status_code text => (status_code =? 200)%Z && truthy (strip text) = false
  end.

(** A web in front of a parser that finds the given texts in every
    mobile-HTML page. *)
Definition world_with_texts (web : request -> http_result) (texts : list str) : World :=
  {| checks := no_checks; session_get := web;
     mobile_texts := fun _ => Val texts; generic_texts := fun _ => Val [] |}.

(** A [json.loads] that knows one text. *)
Definition loads_as (text : str) (v : json) : str -> exc json :=
  fun t => if t =? text then Val v else Raise JSONDecodeError.

Definition helpers_with (loads : str -> exc json) : LocalOpenAIClient.Helpers :=
  {| LocalOpenAIClient.json_loads := loads;
     LocalOpenAIClient.select_paragraphs := fun _ content => content |}.

(** An answer of the judge with a label that is neither ["True"] nor
    ["False"], and one whose label is not a string. *)
Definition verdict_maybe : str :=
  "{" ++ LocalOpenAIClient.quoted "label" ++ ": " ++ LocalOpenAIClient.quoted "Maybe"
  ++ ", " ++ LocalOpenAIClient.quoted "evidence" ++ ": "
  ++ LocalOpenAIClient.quoted "born in 1815" ++ "}".

Definition verdict_bool : str :=
  "{" ++ LocalOpenAIClient.quoted "label" ++ ": true, "
  ++ LocalOpenAIClient.quoted "evidence" ++ ": "
  ++ LocalOpenAIClient.quoted "born in 1815" ++ "}".

(** The pages with content among the URLs of a claim, in the order of
    the URLs. *)
Definition retrieved (st : MainLocal.Stages) (found : list str) : list (str * str) :=
  MainLocal.collect_contents
    (List.map (fun url => (url, MainLocal.scrape_wikipedia_content st url)) found).

(** The verdict of an outcome of the loop of [main.py]. *)
Definition verdict_of (o : MainQuery.outcome) : option ClaimResult :=
  match o with
  | MainQuery.Answered _ result _ => result
  | _ => None
  end.

(** A run of [k] slashes. *)
Fixpoint slashes (k : nat) : str :=
  match k with
  | O => ""
  | S k' => String "/" (slashes k')
  end.

(** What the loop over the selected elements keeps: a non-empty list of
    blocks of more than 10 characters each. *)
Definition kept_blocks (txt : str) : Prop :=
  exists blocks,
    blocks <> []
    /\ Forall (fun b => (10 < len b)%nat) blocks
    /\ txt = join blank_line blocks.

(** A search that returns two URLs and a retrieval that finds content
    at the first of them only. *)
Definition two_url_stages : MainLocal.Stages :=
  {| MainLocal.extract_claims_from_query := fun _ => Val [ada_claim];
     MainLocal.optimize_claim := fun c => Val c;
     MainLocal.get_query_for_wiki_article := fun _ => Val "Ada Lovelace";
     MainLocal.get_first_n_results_urls :=
       fun _ _ => Val (Some [ada_url; "https://en.wikipedia.org/wiki/Nobody"]);
     MainLocal.scrape_wikipedia_content :=
       fun url => if url =? ada_url
                  then Val (Some "Ada Lovelace was born on 10 December 1815.")
                  else Val None;
     MainLocal.find_answer_in_article := fun _ _ => Val (Some ada_verdict) |}.

(** A local model server that answers every prompt with the text
    [[1, 2]], and a [json.loads] that parses it. *)
Definition numbers_helpers : LocalOpenAIClient.Helpers :=
  helpers_with (loads_as "[1, 2]" (JArr [JNum 1; JNum 2])).

(* ================================================================= *)
(** * Properties *)

(** ** The library functions on examples *)

Example split_on_examples :
  split_on "/" "/wiki/Ada_Lovelace" = [""; "wiki"; "Ada_Lovelace"]
  /\ split_on "/" "a/b/" = ["a"; "b"; ""]
  /\ split_on "/" "" = [""]
  /\ split_on "/" "/wiki/AC/DC" = [""; "wiki"; "AC"; "DC"].
Proof. repeat split. Qed.

Example strip_examples :
  strip (String (ascii_of_N 194) (String (ascii_of_N 160) " a ")) = "a"
  /\ strip (String (ascii_of_N 28) (String (ascii_of_N 9) "")) = ""
  /\ strip "  Plain text " = "Plain text".
Proof. repeat split. Qed.

Example len_and_take :
  len "é€a" = 3%nat /\ take 2 "é€a" = "é€" /\ String.length "é€a" = 6%nat.
Proof. repeat split. Qed.

Example quote_examples :
  quote "born on 10 December 1815" = "born%20on%2010%20December%201815"
  /\ quote "é€/~ %" = "%C3%A9%E2%82%AC/~%20%25"
  /\ quote "AC/DC" = "AC/DC"
  /\ quote_with "" "AC/DC" = "AC%2FDC".
Proof. repeat split. Qed.

Example unquote_examples :
  unquote "a%2Fb%%zz%4" = "a/b%%zz%4"
  /\ unquote "%C3%A9%e2%82%aC" = "é€"
  /\ unquote "%ED%A0%80" = replacement ++ replacement ++ replacement
  /\ unquote "%E2%82" = replacement
  /\ unquote "%41%zz%E9" = "A%zz" ++ replacement
  /\ unquote "%F0%90A%E0%80" = replacement ++ "A" ++ replacement ++ replacement
  /\ unquote "é%41" = "éA".
Proof. repeat split. Qed.

Example urlparse_examples :
  urlparse no_checks "  HTTPs://en.wikipedia.org/wiki/Ada;x/y;p?q=1#frag"
  = Val {| scheme := "https"; netloc := "en.wikipedia.org";
           path := "/wiki/Ada;x/y"; params := "p"; query := "q=1";
           fragment := "frag" |}
  /\ urlparse no_checks "//[::1/wiki" = Raise ValueError
  /\ urlparse no_checks "en.wikipedia.org/wiki/A:b"
     = Val {| scheme := ""; netloc := ""; path := "en.wikipedia.org/wiki/A:b";
              params := ""; query := ""; fragment := "" |}.
Proof. repeat split. Qed.

Example extract_title_examples :
  _extract_title_from_wiki_url no_checks
    "https://en.wikipedia.org/wiki/Ada_Lovelace?action=raw#Life" = Some "Ada_Lovelace"
  /\ _extract_title_from_wiki_url no_checks "https://example.com/wiki/Ada" = None
  /\ _extract_title_from_wiki_url no_checks "https://en.wikipedia.org/w/index.php" = None
  /\ _extract_title_from_wiki_url no_checks "https://en.wikipedia.org/wiki/C%2B%2B"
     = Some "C++".
Proof. repeat split. Qed.

(** The patterns of the local client. *)
Example search_verdict_examples :
  search_verdict ("x {" ++ quoted "label" ++ ": " ++ quoted "True" ++ ", "
                  ++ quoted "evidence" ++ ": " ++ quoted "abc" ++ "} y")
  = Some ("{" ++ quoted "label" ++ ": " ++ quoted "True" ++ ", "
          ++ quoted "evidence" ++ ": " ++ quoted "abc" ++ "}")
  /\ search_verdict ("{ {" ++ quoted "evidence" ++ ": 1, " ++ quoted "label" ++ ": 2}")
     = None
  /\ search_verdict ("{a} {" ++ quoted "label" ++ " " ++ quoted "evidence" ++ "}")
     = Some ("{" ++ quoted "label" ++ " " ++ quoted "evidence" ++ "}")
  /\ search_verdict ("{" ++ quoted "label" ++ ": " ++ quoted "{" ++ ", "
                     ++ quoted "evidence" ++ ": " ++ quoted "}" ++ "}")
     = Some ("{" ++ quoted "label" ++ ": " ++ quoted "{" ++ ", "
             ++ quoted "evidence" ++ ": " ++ dq ++ "}")
  /\ search_verdict ("{" ++ quoted "labelevidence" ++ "}") = None
  /\ search_verdict verdict_with_number = Some verdict_with_number.
Proof. repeat split. Qed.

Example search_evidence_examples :
  search_evidence ("foo " ++ quoted "evidence" ++ ":   " ++ quoted "bar" ++ " baz")
  = Some "bar"
  /\ search_evidence (quoted "evidence" ++ ": bar " ++ quoted "evidence" ++ ":"
                      ++ quoted "x") = Some "x"
  /\ search_evidence (quoted "evidence" ++ ": " ++ dq ++ "unterminated") = None
  /\ search_evidence (quoted "evidence" ++ ":"
                      ++ String (ascii_of_N 194) (String (ascii_of_N 160) nl)
                      ++ quoted "nb") = Some "nb".
Proof. repeat split. Qed.

Example search_array_examples :
  search_array ("Claims: [" ++ quoted "a" ++ ", " ++ quoted "b" ++ "] and [c]")
  = Some ("[" ++ quoted "a" ++ ", " ++ quoted "b" ++ "]")
  /\ search_array ("[" ++ nl ++ "] [x]") = Some "[x]"
  /\ search_array "[ab" = None
  /\ search_array "][" = None.
Proof. repeat split. Qed.

(** The request of the local client on replies of the server. *)
Example make_request_examples :
  _make_request (answers (JStr "Ada")) "prompt" 200 = Val (Some (JStr "Ada"))
  /\ _make_request (fun _ _ => PostFailed ConnectionError) "prompt" 200 = Val None
  /\ _make_request (fun _ _ => ChatResponse 200 (Val (JObj [("choices", JArr [])])))
       "prompt" 200 = Val None
  /\ _make_request (fun _ _ => ChatResponse 200 (Val (JObj [("error", JStr "busy")])))
       "prompt" 200 = Val None
  /\ _make_request (fun _ _ => ChatResponse 200 (Val (JArr [JStr "choices"])))
       "prompt" 200 = Val None
  /\ message_content (ChatResponse 200 (Val (JArr [JStr "choices"]))) = Raise TypeError
  /\ message_content (ChatResponse 200 (Val (JObj [("choices", JArr [JNull])])))
     = Raise TypeError
  /\ message_content (ChatResponse 503 (Val JNull)) = Raise HTTPError.
Proof. repeat split. Qed.

Example slice_to_examples :
  slice_to 1 [1; 2; 3] = [1] /\ slice_to 0 [1; 2; 3] = []
  /\ slice_to (-1) [1; 2; 3] = [1; 2] /\ slice_to (-5) [1; 2; 3] = []
  /\ slice_to 7 [1; 2; 3] = [1; 2; 3].
Proof. repeat split. Qed.

(** The three tests of [tests/test_wikipedia_scraper.py], on a web. *)
Example scraper_prefers_rest_plain :
  snd (scrape_wikipedia_content
         (world_of (one_page (plain_url "Ada_Lovelace") "Plain text"))
         "https://en.wikipedia.org/wiki/Ada_Lovelace")
  = Val (Some "Plain text").
Proof. reflexivity. Qed.

Example scraper_falls_back_to_mobile_html :
  scrape_wikipedia_content
    {| checks := no_checks;
       session_get := one_page (mobile_html_url "Ada_Lovelace") "<p>HTML content</p>";
       mobile_texts := fun _ => Val ["HTML content"; "short"];
       generic_texts := fun _ => Val [] |}
    "https://en.wikipedia.org/wiki/Ada_Lovelace"
  = ([PlainTextTier "Ada_Lovelace"; MobileHtmlTier "Ada_Lovelace"],
     Val (Some "HTML content")).
Proof. reflexivity. Qed.

Example scraper_generic :
  scrape_wikipedia_content
    {| checks := no_checks;
       session_get := one_page "https://example.com/page" "<p>Generic text</p>";
       mobile_texts := fun _ => Val [];
       generic_texts := fun _ => Val ["Generic text"] |}
    "https://example.com/page"
  = ([GenericScrapeTier "https://example.com/page"], Val (Some "Generic text")).
Proof. reflexivity. Qed.

(** The scenario of the specification: one claim, one URL, a content
    that holds the evidence, a verdict with label True. *)
Example end_to_end_scenario :
  MainLocal.process_single_claim stub_stages in_order ada_claim 1 = Val ada_report
  /\ MainLocal.printed_link ada_url (Some ada_verdict)
     = "https://en.wikipedia.org/wiki/Ada_Lovelace#:~:text=born%20on%2010%20December%201815".
Proof. split; reflexivity. Qed.

(** An HTTP error status makes the generic tier raise and the scraper
    return [None]. *)
Example scraper_generic_http_error :
  _generic_html_scrape (world_of (fun _ => Response 403 "Forbidden"))
    "https://example.com/page" = Raise HTTPError
  /\ scrape_wikipedia_content (world_of (fun _ => Response 403 "Forbidden"))
       "https://example.com/page"
     = ([GenericScrapeTier "https://example.com/page"], Val None).
Proof. repeat split. Qed.

(** ** Strings *)

Lemma app_empty_r (s : str) : s ++ "" = s.
Proof. induction s as [|c s IH]; simpl; [reflexivity | now rewrite IH]. Qed.

Lemma app_str_assoc (a b c : str) : (a ++ b) ++ c = a ++ (b ++ c).
Proof. induction a as [|x a IH]; simpl; [reflexivity | now rewrite IH]. Qed.

Lemma app_eq_empty (a b : str) : a ++ b = "" -> a = "" /\ b = "".
Proof. destruct a; simpl; [auto | discriminate]. Qed.

Lemma truthy_spec (s : str) : truthy s = true <-> s <> "".
Proof.
  unfold truthy. destruct (String.eqb_spec s "") as [E|E]; simpl; split;
    intros; try discriminate; try congruence; reflexivity.
Qed.

Lemma truthy_false (s : str) : truthy s = false <-> s = "".
Proof.
  unfold truthy. destruct (String.eqb_spec s "") as [E|E]; simpl; split;
    intros; try discriminate; try congruence; reflexivity.
Qed.

Lemma all_app (p : ascii -> bool) (a b : str) :
  all p (a ++ b) = all p a && all p b.
Proof.
  induction a as [|c a IH]; simpl; [reflexivity|].
  now rewrite IH, andb_assoc.
Qed.

Lemma all_impl (p q : ascii -> bool) (s : str) :
  (forall c, p c = true -> q c = true) -> all p s = true -> all q s = true.
Proof.
  intros Hpq. induction s as [|c s IH]; simpl; [reflexivity|].
  intros H. apply andb_true_iff in H as [Hc Hs].
  now rewrite (Hpq _ Hc), IH.
Qed.

Lemma mem_app (c : ascii) (a b : str) : mem c (a ++ b) = mem c a || mem c b.
Proof.
  induction a as [|x a IH]; simpl; [reflexivity|].
  now rewrite IH, orb_assoc.
Qed.

(** A character that fails [p] everywhere in [s] does not occur in [s]. *)
Lemma mem_all_false (p : ascii -> bool) (c : ascii) (s : str) :
  p c = false -> all p s = true -> mem c s = false.
Proof.
  intros Hc. induction s as [|x s IH]; simpl; [reflexivity|].
  intros H. apply andb_true_iff in H as [Hx Hs].
  rewrite (IH Hs), orb_false_r.
  destruct (Ascii.eqb_spec c x) as [->|]; [congruence | reflexivity].
Qed.

Lemma filter_all (p : ascii -> bool) (s : str) : all p s = true -> filter p s = s.
Proof.
  induction s as [|c s IH]; simpl; [reflexivity|].
  intros H. apply andb_true_iff in H as [Hc Hs].
  now rewrite Hc, IH.
Qed.

Lemma partition_absent (sep : ascii) (s : str) :
  mem sep s = false -> partition sep s = None.
Proof.
  induction s as [|c s IH]; simpl; [reflexivity|].
  intros H. apply orb_false_iff in H as [Hc Hs].
  rewrite Ascii.eqb_sym, Hc, (IH Hs). reflexivity.
Qed.

Lemma split_on_not_nil (sep : ascii) (s : str) : split_on sep s <> [].
Proof.
  destruct s as [|c s]; simpl; [discriminate|].
  destruct (Ascii.eqb c sep); [discriminate|].
  destruct (split_on sep s); discriminate.
Qed.

Lemma split_on_absent (sep : ascii) (s : str) :
  mem sep s = false -> split_on sep s = [s].
Proof.
  induction s as [|c s IH]; simpl; [reflexivity|].
  intros H. apply orb_false_iff in H as [Hc Hs].
  rewrite Ascii.eqb_sym, Hc, (IH Hs). reflexivity.
Qed.

(** The first part of a split is the text before the first separator. *)
Lemma split_on_app (sep : ascii) (a r : str) :
  mem sep a = false -> split_on sep (a ++ String sep r) = a :: split_on sep r.
Proof.
  induction a as [|c a IH]; simpl.
  - intros _. now rewrite Ascii.eqb_refl.
  - intros H. apply orb_false_iff in H as [Hc Ha].
    rewrite Ascii.eqb_sym, Hc, (IH Ha). reflexivity.
Qed.

Lemma lstrip_empty_of_strip (s : str) : strip s <> "" -> s <> "".
Proof. intros H ->. apply H. reflexivity. Qed.

(** ** The exception monad *)

Lemma try_except_returns {A} (m : exc A) (h : exn -> exc A) :
  (forall e, returns (h e)) -> returns (try_except m h).
Proof.
  intros Hh. destruct m as [a|e]; simpl; [now exists a | apply Hh].
Qed.

Lemma returns_val {A} (a : A) : returns (Val a).
Proof. now exists a. Qed.

(* ================================================================= *)
(** ** [quote] and [unquote] *)

Ltac each_byte c := destruct c as [[] [] [] [] [] [] [] []].

(** The two hexadecimal digits of a byte decode to the byte. *)
Lemma unquote_item_percent (c : ascii) (rest : str) :
  unquote_item (String (hex_digit (ord c / 16))
                  (String (hex_digit (ord c mod 16)) rest)) = String c rest.
Proof. each_byte c; reflexivity. Qed.

Lemma hex_digit_not_percent (c : ascii) :
  Ascii.eqb (hex_digit (ord c / 16)) "%" = false
  /\ Ascii.eqb (hex_digit (ord c mod 16)) "%" = false.
Proof. each_byte c; split; reflexivity. Qed.

Lemma hex_digit_always_safe (c : ascii) :
  always_safe (hex_digit (ord c / 16)) = true
  /\ always_safe (hex_digit (ord c mod 16)) = true.
Proof. each_byte c; split; reflexivity. Qed.

Lemma always_safe_ascii (c : ascii) : always_safe c = true -> is_ascii c = true.
Proof. each_byte c; vm_compute; congruence. Qed.

Lemma is_safe_ascii (safe : str) (c : ascii) : is_safe safe c = true -> is_ascii c = true.
Proof.
  unfold is_safe. intros H. apply orb_true_iff in H as [H|H].
  - now apply always_safe_ascii.
  - now apply andb_true_iff in H as [H _].
Qed.

Lemma unquote_to_bytes_cons (c : ascii) (t : str) :
  Ascii.eqb c "%" = false ->
  unquote_to_bytes (String c t) = String c (unquote_to_bytes t).
Proof.
  intros Hc. unfold unquote_to_bytes. simpl. rewrite Hc.
  destruct (split_on "%" t) as [|h tl] eqn:E.
  - now apply split_on_not_nil in E.
  - reflexivity.
Qed.

Lemma unquote_to_bytes_percent (c : ascii) (t : str) :
  unquote_to_bytes (percent c ++ t) = String c (unquote_to_bytes t).
Proof.
  destruct (hex_digit_not_percent c) as [Hh Hl].
  unfold unquote_to_bytes, percent. simpl. rewrite Hh, Hl.
  destruct (split_on "%" t) as [|h tl] eqn:E.
  - now apply split_on_not_nil in E.
  - cbn [concat_items]. rewrite unquote_item_percent. reflexivity.
Qed.

Section Quoting.

Variable safe : str.
Hypothesis percent_not_safe : mem "%" safe = false.

Lemma safe_not_percent (c : ascii) : is_safe safe c = true -> Ascii.eqb c "%" = false.
Proof.
  intros H. destruct (Ascii.eqb_spec c "%") as [->|]; [|reflexivity].
  unfold is_safe in H. rewrite percent_not_safe in H. discriminate.
Qed.

(** Unquoting to bytes undoes quoting. *)
Lemma unquote_to_bytes_quote (s : str) :
  unquote_to_bytes (quote_with safe s) = s.
Proof.
  unfold quote_with. induction s as [|c s IH]; [reflexivity|].
  cbn [quote_from_bytes]. unfold quote_byte.
  destruct (is_safe safe c) eqn:Hc.
  - cbn [append]. rewrite unquote_to_bytes_cons by now apply safe_not_percent.
    now rewrite IH.
  - rewrite unquote_to_bytes_percent. now rewrite IH.
Qed.

(** A quoted text without ['%'] is the text itself. *)
Lemma quote_without_percent (s : str) :
  mem "%" (quote_with safe s) = false -> quote_with safe s = s.
Proof.
  unfold quote_with. induction s as [|c s IH]; [reflexivity|].
  cbn [quote_from_bytes]. unfold quote_byte.
  destruct (is_safe safe c) eqn:Hc.
  - cbn [append mem]. intros H. apply orb_false_iff in H as [_ H].
    now rewrite IH.
  - unfold percent. cbn [append mem]. rewrite Ascii.eqb_refl. discriminate.
Qed.

End Quoting.

(** Every character of a quoted text satisfies [p] as soon as the safe
    characters, ['%'] and the hexadecimal digits do. *)
Lemma all_quote (safe : str) (p : ascii -> bool) (s : str) :
  (forall c, is_safe safe c = true -> p c = true) ->
  (forall c, always_safe c = true -> p c = true) ->
  p "%"%char = true ->
  all p (quote_with safe s) = true.
Proof.
  intros Hsafe Halways Hpercent. unfold quote_with.
  induction s as [|c s IH]; [reflexivity|].
  cbn [quote_from_bytes]. rewrite all_app, IH, andb_true_r.
  unfold quote_byte. destruct (is_safe safe c) eqn:Hc.
  - simpl. now rewrite (Hsafe _ Hc).
  - destruct (hex_digit_always_safe c) as [Hh Hl].
    unfold percent. simpl.
    now rewrite Hpercent, (Halways _ Hh), (Halways _ Hl).
Qed.

Lemma quote_ascii (safe : str) (s : str) : all is_ascii (quote_with safe s) = true.
Proof.
  apply all_quote.
  - apply is_safe_ascii.
  - apply always_safe_ascii.
  - reflexivity.
Qed.

(** *** Decoding well-formed UTF-8 *)

Lemma start_step_ok (c : ascii) (out : str) (st : utf8_state) :
  start_step c = (true, out, st) -> out ++ seen_of st = String c "".
Proof.
  unfold start_step.
  repeat match goal with
         | |- context [if ?b then _ else _] => destruct b
         end; intros H; inversion H; subst; reflexivity.
Qed.

Lemma step_ok (st : utf8_state) (c : ascii) (out : str) (st' : utf8_state) :
  step st c = (true, out, st') ->
  out ++ seen_of st' = seen_of st ++ String c "".
Proof.
  destruct st as [|more lo hi seen]; simpl.
  - apply start_step_ok.
  - destruct (in_range lo hi c).
    + destruct more; intros H; inversion H; subst; simpl;
        [now rewrite app_empty_r | reflexivity].
    + destruct (start_step c) as [[ok o] s']. discriminate.
Qed.

(** On a well-formed input the decoder copies its input. *)
Lemma decode_well_formed (bs : str) :
  forall st, well_formed_from st bs = true ->
             decode_from st bs = seen_of st ++ bs.
Proof.
  induction bs as [|c r IH]; intros st; simpl.
  - destruct st; [reflexivity | discriminate].
  - destruct (step st c) as [[ok out] st'] eqn:E.
    intros H. apply andb_true_iff in H as [-> Hr].
    rewrite (IH _ Hr), <- app_str_assoc, (step_ok _ _ _ _ E), app_str_assoc.
    reflexivity.
Qed.

Lemma decode_replace_valid (s : str) : valid_utf8 s = true -> decode_replace s = s.
Proof. intros H. apply (decode_well_formed s Start H). Qed.



(** *** [unquote] *)

(** On ASCII text [unquote] is one run. *)
Lemma unquote_runs_ascii (s : str) :
  forall run, all is_ascii s = true -> unquote_runs run s = unquote_run (run ++ s).
Proof.
  induction s as [|c s IH]; intros run; simpl.
  - now rewrite app_empty_r.
  - intros H. apply andb_true_iff in H as [-> Hs].
    rewrite (IH _ Hs), app_str_assoc. reflexivity.
Qed.

(** The round trip of the two functions of [urllib.parse]. *)
Lemma unquote_quote (safe s : str) :
  mem "%" safe = false -> valid_utf8 s = true ->
  unquote (quote_with safe s) = s.
Proof.
  intros Hsafe Hs. unfold unquote.
  destruct (mem "%" (quote_with safe s)) eqn:E; simpl.
  - rewrite unquote_runs_ascii by apply quote_ascii.
    unfold unquote_run. simpl.
    rewrite (unquote_to_bytes_quote safe Hsafe).
    now apply decode_replace_valid.
  - now apply quote_without_percent.
Qed.






(* ================================================================= *)
(** ** [urlparse] on the URL of an article *)

Lemma cut_absent (c : ascii) (s : str) : mem c s = false -> cut c s = (s, "").
Proof. intros H. unfold cut. now rewrite partition_absent. Qed.


Lemma url_plain_no_delimiter (c : ascii) (q : str) :
  mem c "#?;" = true -> all url_plain q = true -> mem c q = false.
Proof.
  intros Hc. apply mem_all_false. unfold url_plain. rewrite Hc.
  apply andb_false_r.
Qed.

Lemma delimiter_not_in_wiki (c : ascii) : mem c "#?;" = true -> mem c "/wiki/" = false.
Proof. each_byte c; vm_compute; congruence. Qed.

(** The components of [https://en.wikipedia.org/wiki/q]. *)
Lemma urlparse_wiki (hc : HostChecks) (q : str) :
  all url_plain q = true ->
  urlparse hc ("https://en.wikipedia.org/wiki/" ++ q)
  = Val {| scheme := "https"; netloc := "en.wikipedia.org";
           path := "/wiki/" ++ q; params := ""; query := ""; fragment := "" |}.
Proof.
  intros Hq.
  assert (Hf : filter (fun c => negb (unsafe_url_byte c))
                 ("https://en.wikipedia.org/wiki/" ++ q)
               = "https://en.wikipedia.org/wiki/" ++ q).
  { apply filter_all. rewrite all_app. simpl.
    revert Hq. apply all_impl. intros c H.
    unfold url_plain in H. now apply andb_true_iff in H as [H _]. }
  assert (Hm : forall c, mem c "#?;" = true -> mem c ("/wiki/" ++ q) = false).
  { intros c Hc. rewrite mem_app, (delimiter_not_in_wiki c Hc).
    now apply url_plain_no_delimiter. }
  unfold urlparse, urlsplit. cbv zeta.
  change (snd (span c0_or_space ("https://en.wikipedia.org/wiki/" ++ q)))
    with ("https://en.wikipedia.org/wiki/" ++ q).
  rewrite Hf.
  change (split_scheme ("https://en.wikipedia.org/wiki/" ++ q))
    with ("https", "//en.wikipedia.org/wiki/" ++ q).
  cbv beta iota.
  change (prefix "//" ("//en.wikipedia.org/wiki/" ++ q)) with true.
  cbv beta iota.
  change (_splitnetloc (drop 2 ("//en.wikipedia.org/wiki/" ++ q)))
    with ("en.wikipedia.org", "/wiki/" ++ q).
  cbv beta iota.
  change (netloc_brackets_raise hc "en.wikipedia.org") with false.
  cbv beta iota. unfold split_rest.
  rewrite (cut_absent "#"%char) by (apply Hm; reflexivity).
  rewrite (cut_absent "?"%char) by (apply Hm; reflexivity).
  change (_checknetloc_raises hc "en.wikipedia.org") with false.
  cbv beta iota. cbn [bind scheme path].
  rewrite (Hm ";"%char) by reflexivity.
  reflexivity.
Qed.

Lemma safe_slash_url_plain (c : ascii) : is_safe "/" c = true -> url_plain c = true.
Proof. each_byte c; vm_compute; congruence. Qed.

Lemma always_safe_url_plain (c : ascii) : always_safe c = true -> url_plain c = true.
Proof. each_byte c; vm_compute; congruence. Qed.

Lemma quote_url_plain (s : str) : all url_plain (quote s) = true.
Proof.
  apply all_quote.
  - apply safe_slash_url_plain.
  - apply always_safe_url_plain.
  - reflexivity.
Qed.

Lemma hex_digit_not_slash (c : ascii) :
  Ascii.eqb "/" (hex_digit (ord c / 16)) = false
  /\ Ascii.eqb "/" (hex_digit (ord c mod 16)) = false.
Proof. each_byte c; split; reflexivity. Qed.

(** Quoting introduces no slash. *)
Lemma quote_no_slash (s : str) : mem "/" s = false -> mem "/" (quote s) = false.
Proof.
  unfold quote, quote_with. induction s as [|c s IH]; [reflexivity|].
  cbn [mem quote_from_bytes]. intros H. apply orb_false_iff in H as [Hc Hs].
  rewrite mem_app, (IH Hs), orb_false_r.
  unfold quote_byte. destruct (is_safe "/" c).
  - cbn [mem]. now rewrite Hc.
  - destruct (hex_digit_not_slash c) as [Hh Hl].
    unfold percent. cbn [mem]. now rewrite Hh, Hl.
Qed.

(** The parts of a wiki path whose last segment has no slash. *)
Lemma split_wiki_path (seg : str) :
  mem "/" seg = false -> split_on "/" ("/wiki/" ++ seg) = [""; "wiki"; seg].
Proof.
  intros H.
  change ("/wiki/" ++ seg) with ("" ++ String "/" ("wiki" ++ String "/" seg)).
  rewrite split_on_app by reflexivity.
  rewrite split_on_app by reflexivity.
  now rewrite split_on_absent.
Qed.

(** Title extraction on a parsed URL. *)
Lemma extract_title_parsed (hc : HostChecks) (url : str) (parsed : ParseResult) (seg : str) :
  urlparse hc url = Val parsed ->
  contains "wikipedia.org" (netloc parsed) = true ->
  path parsed = "/wiki/" ++ seg ->
  mem "/" seg = false ->
  _extract_title_from_wiki_url hc url = Some (unquote seg).
Proof.
  intros Hp Hn Hpath Hseg. unfold _extract_title_from_wiki_url.
  rewrite Hp, Hn, Hpath, (split_wiki_path seg Hseg). reflexivity.
Qed.

(** ** The tiers of the scraper *)

Lemma scrape_without_title (w : World) (url : str) :
  truthy_opt (_extract_title_from_wiki_url (checks w) url) = false ->
  scrape_wikipedia_content w url = generic_tier w url.
Proof.
  unfold scrape_wikipedia_content.
  destruct (_extract_title_from_wiki_url (checks w) url) as [t|]; simpl;
    [intros -> | ]; reflexivity.
Qed.

Lemma scrape_with_title (w : World) (url title : str) :
  _extract_title_from_wiki_url (checks w) url = Some title ->
  title <> "" ->
  scrape_wikipedia_content w url = wikipedia_tiers w url title.
Proof.
  intros E Ht. unfold scrape_wikipedia_content. rewrite E.
  apply truthy_spec in Ht. now rewrite Ht.
Qed.

Lemma plain_text_ok (w : World) (title body : str) :
  session_get w {| req_url := plain_url title; req_accept := accept_default |}
    = Response 200 body ->
  strip body <> "" ->
  tier_text (_wiki_rest_plain_text w title) = Some body.
Proof.
  intros Hget Hbody. unfold _wiki_rest_plain_text. rewrite Hget.
  assert (Hs : truthy (strip body) = true) by now apply truthy_spec.
  assert (Hb : truthy body = true).
  { apply truthy_spec. now apply lstrip_empty_of_strip. }
  simpl. rewrite Hs. simpl. now rewrite Hb.
Qed.

(** The scraper returns whatever the web and the parser do. *)
Lemma generic_tier_returns (w : World) (url : str) : returns (snd (generic_tier w url)).
Proof. simpl. apply try_except_returns. intros _. apply returns_val. Qed.

Lemma scrape_wikipedia_content_returns (w : World) (url : str) :
  returns (snd (scrape_wikipedia_content w url)).
Proof.
  unfold scrape_wikipedia_content.
  destruct (_extract_title_from_wiki_url (checks w) url) as [title|];
    [|apply generic_tier_returns].
  destruct (truthy title); [|apply generic_tier_returns].
  unfold wikipedia_tiers.
  destruct (tier_text (_wiki_rest_plain_text w title)); [apply returns_val|].
  destruct (tier_text (_wiki_rest_mobile_html w title)); [apply returns_val|].
  pose proof (generic_tier_returns w url) as G.
  destruct (generic_tier w url) as [evs r]. exact G.
Qed.

(** An error of the generic scrape, an HTTP error status among them, is
    not propagated: the retrieval ends with [None]. *)
Lemma generic_error_is_none (w : World) (url : str) (e : exn) :
  _generic_html_scrape w url = Raise e ->
  snd (generic_tier w url) = Val None.
Proof. intros H. simpl. now rewrite H. Qed.

Lemma generic_http_error_raises (w : World) (url text : str) (status_code : Z) :
  session_get w {| req_url := url; req_accept := accept_default |}
    = Response status_code text ->
  (400 <= status_code < 600)%Z ->
  _generic_html_scrape w url = Raise HTTPError.
Proof.
  intros H [Hlo Hhi]. unfold _generic_html_scrape, raise_for_status. rewrite H.
  apply Z.leb_le in Hlo. apply Z.ltb_lt in Hhi. now rewrite Hlo, Hhi.
Qed.

(* ================================================================= *)
(** ** Retrieval: the order of the tiers *)

(** C1.  For every URL from which a title is extracted (a non-empty one:
    the scraper tests [if title:]), if the plain-text REST tier gets an
    HTTP 200 response whose body is not empty once white space is
    trimmed, then the scraper returns that body as it is, untrimmed, and
    the plain-text tier is the only tier that runs: neither the
    mobile-HTML tier nor the generic scrape is invoked. *)
Theorem plain_text_short_circuit (w : World) (url title body : str) :
  _extract_title_from_wiki_url (checks w) url = Some title ->
  title <> "" ->
  session_get w {| req_url := plain_url title; req_accept := accept_default |}
    = Response 200 body ->
  strip body <> "" ->
  scrape_wikipedia_content w url = ([PlainTextTier title], Val (Some body)).
Proof.
  intros Htitle Hne Hget Hbody.
  rewrite (scrape_with_title w url title Htitle Hne).
  unfold wikipedia_tiers.
  now rewrite (plain_text_ok w title body Hget Hbody).
Qed.

Lemma plain_text_short_circuit_witness :
  scrape_wikipedia_content
    (world_of (one_page (plain_url "Ada_Lovelace") "  Ada Lovelace was born in 1815. "))
    "https://en.wikipedia.org/wiki/Ada_Lovelace"
  = ([PlainTextTier "Ada_Lovelace"], Val (Some "  Ada Lovelace was born in 1815. ")).
Proof.
  apply plain_text_short_circuit.
  - reflexivity.
  - discriminate.
  - reflexivity.
  - vm_compute. discriminate.
Defined.

(** An empty title counts as no title: the wiki path without a title
    gives the empty string, and the scraper goes to the generic scrape
    whatever the plain-text endpoint would answer. *)
Lemma empty_title_goes_generic (web : request -> http_result) :
  _extract_title_from_wiki_url no_checks "https://en.wikipedia.org/wiki/" = Some ""
  /\ fst (scrape_wikipedia_content (world_of web) "https://en.wikipedia.org/wiki/")
     = [GenericScrapeTier "https://en.wikipedia.org/wiki/"].
Proof. split; reflexivity. Qed.

(** C2.  For every URL for which title extraction fails, that is, gives
    no title the scraper can use ([None], or the empty title that
    [if title:] rejects as well), the scraper calls the generic-scrape
    tier only: the plain-text tier and the mobile-HTML tier are not
    attempted, and the outcome is the one of the generic scrape. *)
Theorem no_title_generic_only (w : World) (url : str) :
  truthy_opt (_extract_title_from_wiki_url (checks w) url) = false ->
  fst (scrape_wikipedia_content w url) = [GenericScrapeTier url]
  /\ scrape_wikipedia_content w url = generic_tier w url.
Proof.
  intros H. rewrite (scrape_without_title w url H). split; reflexivity.
Qed.

Lemma no_title_generic_only_witness :
  _extract_title_from_wiki_url no_checks "https://example.com/wiki/Ada_Lovelace" = None
  /\ fst (scrape_wikipedia_content
            (world_of (one_page "https://example.com/wiki/Ada_Lovelace" "<p>Ada</p>"))
            "https://example.com/wiki/Ada_Lovelace")
     = [GenericScrapeTier "https://example.com/wiki/Ada_Lovelace"].
Proof.
  split; [reflexivity|].
  apply (no_title_generic_only
           (world_of (one_page "https://example.com/wiki/Ada_Lovelace" "<p>Ada</p>"))
           "https://example.com/wiki/Ada_Lovelace").
  reflexivity.
Defined.

(** Extraction fails on a host that does not contain the domain ... *)
Lemma foreign_host_no_title (hc : HostChecks) (url : str) (parsed : ParseResult) :
  urlparse hc url = Val parsed ->
  contains "wikipedia.org" (netloc parsed) = false ->
  _extract_title_from_wiki_url hc url = None.
Proof.
  intros Hp Hn. unfold _extract_title_from_wiki_url. now rewrite Hp, Hn.
Qed.

(** ... on a path whose first segment is not [wiki] ... *)
Lemma other_path_no_title (hc : HostChecks) (url : str) (parsed : ParseResult) :
  urlparse hc url = Val parsed ->
  nth 1 (split_on "/" (path parsed)) "" <> "wiki" ->
  _extract_title_from_wiki_url hc url = None.
Proof.
  intros Hp Hn. unfold _extract_title_from_wiki_url. rewrite Hp.
  apply String.eqb_neq in Hn. rewrite Hn, andb_false_r.
  now destruct (negb _).
Qed.

(** ... and on a URL that [urlparse] rejects. *)
Lemma rejected_url_no_title (hc : HostChecks) (url : str) (e : exn) :
  urlparse hc url = Raise e -> _extract_title_from_wiki_url hc url = None.
Proof. intros Hp. unfold _extract_title_from_wiki_url. now rewrite Hp. Qed.



(** The foreign host of the example, end to end: the title is extracted
    and the two REST tiers of the encyclopedia run before the generic
    scrape of the foreign page. *)
Lemma fake_host_example :
  scrape_wikipedia_content (world_of (fun _ => Response 404 ""))
    "https://fakewikipedia.org/wiki/Ada_Lovelace"
  = ([PlainTextTier "Ada_Lovelace"; MobileHtmlTier "Ada_Lovelace"; Sleep;
      GenericScrapeTier "https://fakewikipedia.org/wiki/Ada_Lovelace"],
     Val None).
Proof. reflexivity. Qed.

(* ================================================================= *)
(** ** Title extraction: the round trip *)

(** A title with a slash does not come back: [quote] leaves the slash,
    the URL is the one the encyclopedia itself uses for the article, and
    extraction keeps the first segment after [/wiki/] only. *)
Lemma title_with_slash_is_cut :
  wiki_url "AC/DC" = "https://en.wikipedia.org/wiki/AC/DC"
  /\ _extract_title_from_wiki_url no_checks (wiki_url "AC/DC") = Some "AC"
  /\ "AC" <> "AC/DC".
Proof. split; [reflexivity | split; [reflexivity | discriminate]]. Qed.

(** C3, amended.  For every title (well-formed text) without a slash,
    percent-encoding the title with [quote], building the URL
    [https://en.wikipedia.org/wiki/<encoded-title>] and running title
    extraction on it yields the title. *)
Theorem title_round_trip (hc : HostChecks) (title : str) :
  valid_utf8 title = true ->
  mem "/" title = false ->
  _extract_title_from_wiki_url hc (wiki_url title) = Some title.
Proof.
  intros Hv Hs.
  rewrite <- (unquote_quote "/" title eq_refl Hv) at 2.
  apply (extract_title_parsed hc _
           {| scheme := "https"; netloc := "en.wikipedia.org";
              path := "/wiki/" ++ quote title; params := ""; query := "";
              fragment := "" |}).
  - apply urlparse_wiki, quote_url_plain.
  - reflexivity.
  - reflexivity.
  - now apply quote_no_slash.
Qed.

Lemma title_round_trip_witness :
  _extract_title_from_wiki_url no_checks (wiki_url "Ada Lovelace? 100% #1; née Byron")
  = Some "Ada Lovelace? 100% #1; née Byron".
Proof. apply title_round_trip; reflexivity. Defined.

(** When the slash is percent-encoded too ([quote(title, safe='')]) the
    round trip holds for every title. *)
Lemma title_round_trip_all_encoded (hc : HostChecks) (title : str) :
  valid_utf8 title = true ->
  _extract_title_from_wiki_url hc
    ("https://en.wikipedia.org/wiki/" ++ quote_with "" title) = Some title.
Proof.
  intros Hv.
  rewrite <- (unquote_quote "" title eq_refl Hv) at 2.
  apply (extract_title_parsed hc _
           {| scheme := "https"; netloc := "en.wikipedia.org";
              path := "/wiki/" ++ quote_with "" title; params := ""; query := "";
              fragment := "" |}).
  - apply urlparse_wiki, all_quote.
    + intros c H. apply always_safe_url_plain.
      unfold is_safe in H. simpl in H. now rewrite andb_false_r, orb_false_r in H.
    + apply always_safe_url_plain.
    + reflexivity.
  - reflexivity.
  - reflexivity.
  - apply (mem_all_false (fun c => negb (Ascii.eqb c "/"))); [reflexivity|].
    apply all_quote.
    + intros c H. unfold is_safe in H. simpl in H.
      rewrite andb_false_r, orb_false_r in H. revert H.
      each_byte c; vm_compute; congruence.
    + intros c. each_byte c; vm_compute; congruence.
    + reflexivity.
Qed.

(* ================================================================= *)
(** ** The evidence link *)

Lemma safe_slash_chars (c : ascii) :
  is_safe "/" c = true -> always_safe c || Ascii.eqb c "/" || Ascii.eqb c "%" = true.
Proof. each_byte c; vm_compute; congruence. Qed.

(** Every character of a quoted text is unreserved, a slash, or the
    ['%'] of an escape. *)
Lemma quote_chars (s : str) :
  all (fun c => always_safe c || Ascii.eqb c "/" || Ascii.eqb c "%") (quote s) = true.
Proof.
  apply all_quote.
  - apply safe_slash_chars.
  - intros c H. now rewrite H.
  - reflexivity.
Qed.

(** A byte that needs encoding is written as its escape. *)
Lemma quote_cons (c : ascii) (s : str) :
  quote (String c s)
  = (if is_safe "/" c then String c "" else percent c) ++ quote s.
Proof. reflexivity. Qed.

(** C7.  For every URL and every non-empty evidence,
    [build_text_fragment_link] returns the URL followed by the anchor
    [#:~:text=] and the percent-encoded evidence: every character of
    the encoded evidence is unreserved, a slash or the ['%'] of an
    escape, and unquoting it gives the evidence back.  For an absent
    evidence the result is the URL.  The two copies of the function
    agree. *)
Theorem text_fragment_link (url evidence : str) :
  evidence <> "" ->
  Factcheck.build_text_fragment_link url (Some evidence)
    = url ++ "#:~:text=" ++ quote evidence
  /\ LocalFactcheckFull.build_text_fragment_link url (Some evidence)
    = url ++ "#:~:text=" ++ quote evidence
  /\ all (fun c => always_safe c || Ascii.eqb c "/" || Ascii.eqb c "%")
       (quote evidence) = true
  /\ unquote_to_bytes (quote evidence) = evidence
  /\ Factcheck.build_text_fragment_link url None = url
  /\ LocalFactcheckFull.build_text_fragment_link url None = url.
Proof.
  intros H. apply truthy_spec in H.
  unfold Factcheck.build_text_fragment_link,
    LocalFactcheckFull.build_text_fragment_link.
  rewrite H. repeat split.
  - apply quote_chars.
  - apply (unquote_to_bytes_quote "/" eq_refl).
Qed.

Lemma text_fragment_link_witness :
  Factcheck.build_text_fragment_link
    "https://en.wikipedia.org/wiki/Ada_Lovelace" (Some "born on 10 December 1815")
    = "https://en.wikipedia.org/wiki/Ada_Lovelace"
      ++ "#:~:text=" ++ quote "born on 10 December 1815"
  /\ quote "born on 10 December 1815" = "born%20on%2010%20December%201815".
Proof.
  split.
  - apply (text_fragment_link "https://en.wikipedia.org/wiki/Ada_Lovelace"
             "born on 10 December 1815"). discriminate.
  - reflexivity.
Defined.

(** An empty evidence is an absent one. *)
Lemma text_fragment_link_empty (url : str) :
  Factcheck.build_text_fragment_link url (Some "") = url
  /\ LocalFactcheckFull.build_text_fragment_link url (Some "") = url.
Proof. split; reflexivity. Qed.

(* ================================================================= *)
(** ** The search step *)

Lemma slice_to_firstn {A} (n : Z) (l : list A) :
  (0 <= n)%Z -> slice_to n l = firstn (Z.to_nat n) l.
Proof. intros H. unfold slice_to. apply Z.leb_le in H. now rewrite H. Qed.

Lemma Forall_firstn {A} (P : A -> Prop) (n : nat) (l : list A) :
  Forall P l -> Forall P (firstn n l).
Proof.
  intros H. revert n. induction H as [|x l Hx Hl IH]; intros [|n]; simpl;
    constructor; auto.
Qed.

Lemma get_first_n_results_urls_returns
  (engine : GoogleCustomSearch.SearchEngine) (query : str) (n : Z) :
  returns (GoogleCustomSearch.get_first_n_results_urls engine query n).
Proof. apply try_except_returns. intros _. apply returns_val. Qed.

(** The comprehension over well-formed items gives their links. *)
Lemma links_of_objects (items : list json) :
  Forall is_object items ->
  GoogleCustomSearch.links items = Val (reply_links items).
Proof.
  induction 1 as [|item items Hitem _ IH]; [reflexivity|].
  destruct item as [| b | z | f | s | l | fields]; try contradiction.
  cbn [GoogleCustomSearch.links get bind reply_links item_link].
  destruct (lookup "link" fields) as [v|]; [|exact IH].
  destruct (truthy_json v); [|exact IH].
  rewrite IH. reflexivity.
Qed.

(** The links are returned as they come: a link that is a number is
    returned as a number, so the list is not always a list of URL
    strings. *)
Lemma search_returns_unchecked_link :
  GoogleCustomSearch.get_first_n_results_urls number_link "Ada" 1 = Val (Some [half])
  /\ ~ is_string half.
Proof. split; [reflexivity | intros H; exact H]. Qed.

(** C8, amended.  For every query and every count [n >= 1] the search
    step returns, never raises, and what it returns is the absent marker
    or a non-empty list of at most [n] links.  On a reply of the
    collaborator with a status that is no error and a list of items that
    are objects, the result is the absent marker when no item has a
    link and otherwise the first [n] ranked result links of the reply:
    a prefix of the links of the items, in the order of the items; they
    are URL strings when the links of the reply are strings (the step
    does not check them).  On a failed request, an error status, a body
    that cannot be decoded, or a reply without items, the result is the
    absent marker. *)
Theorem search_returns_prefix
  (engine : GoogleCustomSearch.SearchEngine) (query : str) (n : Z) :
  (1 <= n)%Z ->
  (exists r,
     GoogleCustomSearch.get_first_n_results_urls engine query n = Val r
     /\ match r with
        | None => True
        | Some l => l <> [] /\ (Z.of_nat (length l) <= n)%Z
        end)
  /\ (forall status_code fields items,
        engine query = GoogleCustomSearch.Reply status_code (Val (JObj fields)) ->
        raise_for_status status_code = Val tt ->
        lookup "items" fields = Some (JArr items) ->
        Forall is_object items ->
        match reply_links items with
        | [] => GoogleCustomSearch.get_first_n_results_urls engine query n = Val None
        | _ :: _ =>
            exists l rest,
              GoogleCustomSearch.get_first_n_results_urls engine query n = Val (Some l)
              /\ l = firstn (Z.to_nat n) (reply_links items)
              /\ reply_links items = (l ++ rest)%list
              /\ l <> []
              /\ (Z.of_nat (length l) <= n)%Z
              /\ (Forall is_string (reply_links items) -> Forall is_string l)
        end)
  /\ ((exists e, engine query = GoogleCustomSearch.GetFailed e)
      \/ (exists status_code body,
            engine query = GoogleCustomSearch.Reply status_code body
            /\ (400 <= status_code < 600)%Z)
      \/ (exists status_code e,
            engine query = GoogleCustomSearch.Reply status_code (Raise e))
      \/ (exists status_code fields,
            engine query = GoogleCustomSearch.Reply status_code (Val (JObj fields))
            /\ lookup "items" fields = None) ->
      GoogleCustomSearch.get_first_n_results_urls engine query n = Val None).
Proof.
  intros Hn.
  assert (Cut : forall (u : json) rest,
            firstn (Z.to_nat n) (u :: rest) <> []
            /\ (Z.of_nat (length (firstn (Z.to_nat n) (u :: rest))) <= n)%Z).
  { intros u rest. split.
    - destruct (Z.to_nat n) eqn:E; [lia | discriminate].
    - pose proof (firstn_le_length (Z.to_nat n) (u :: rest)). lia. }
  unfold GoogleCustomSearch.get_first_n_results_urls, GoogleCustomSearch.search_urls.
  split; [|split].
  - destruct (GoogleCustomSearch.ranked_links (engine query)) as [[|u rest]|e];
      cbn [bind try_except].
    + exists None. split; [reflexivity | exact I].
    + exists (Some (slice_to n (u :: rest))). split; [reflexivity|].
      rewrite slice_to_firstn by lia. apply Cut.
    + exists None. split; [reflexivity | exact I].
  - intros status_code fields items Hreply Hstatus Hitems Hobj.
    unfold GoogleCustomSearch.ranked_links. rewrite Hreply, Hstatus.
    cbn [bind get_default get]. rewrite Hitems. cbn [bind iterate].
    rewrite (links_of_objects items Hobj). cbn [bind try_except].
    destruct (reply_links items) as [|u rest] eqn:E; [reflexivity|].
    exists (firstn (Z.to_nat n) (u :: rest)), (skipn (Z.to_nat n) (u :: rest)).
    rewrite slice_to_firstn by lia.
    split; [reflexivity|]. split; [reflexivity|].
    split; [now rewrite firstn_skipn|].
    split; [apply Cut|]. split; [apply Cut|].
    apply Forall_firstn.
  - unfold GoogleCustomSearch.ranked_links.
    intros [[e ->] | [(status_code & body & -> & Hlo & Hhi)
                     | [(status_code & e & ->) | (status_code & fields & -> & Hitems)]]].
    + reflexivity.
    + unfold raise_for_status.
      apply Z.leb_le in Hlo. apply Z.ltb_lt in Hhi. now rewrite Hlo, Hhi.
    + destruct (raise_for_status status_code); reflexivity.
    + destruct (raise_for_status status_code) as [[]|e]; [|reflexivity].
      cbn [bind get_default get]. now rewrite Hitems.
Qed.

Lemma search_returns_prefix_witness :
  GoogleCustomSearch.get_first_n_results_urls two_links "Ada" 1
  = Val (Some [JStr "http://a"])
  /\ GoogleCustomSearch.get_first_n_results_urls
       (fun _ => GoogleCustomSearch.GetFailed ConnectionError) "Ada" 1
     = Val None.
Proof.
  split.
  - destruct (search_returns_prefix two_links "Ada" 1) as (_ & B & _); [lia|].
    assert (O : Forall is_object
                  [JObj [("link", JStr "http://a")]; JObj [("link", JStr "http://b")]])
      by (repeat constructor).
    specialize (B 200%Z
                  [("items",
                    JArr [JObj [("link", JStr "http://a")];
                          JObj [("link", JStr "http://b")]])]
                  [JObj [("link", JStr "http://a")]; JObj [("link", JStr "http://b")]]
                  eq_refl eq_refl eq_refl O).
    cbn in B. destruct B as (l & rest & E & -> & _). exact E.
  - destruct (search_returns_prefix
                (fun _ => GoogleCustomSearch.GetFailed ConnectionError) "Ada" 1)
      as (_ & _ & F); [lia|].
    apply F. left. now exists ConnectionError.
Defined.

(** The test of the repository: one URL out of two. *)
Lemma search_first_of_two :
  GoogleCustomSearch.get_first_n_results_urls two_links "Ada" 1
  = Val (Some [JStr "http://a"]).
Proof. reflexivity. Qed.

(** A failed request, an error status and an undecodable body all end in
    the absent marker. *)
Lemma search_failure_absent (engine : GoogleCustomSearch.SearchEngine) (query : str) (n : Z) :
  (exists e, engine query = GoogleCustomSearch.GetFailed e)
  \/ (exists body, engine query = GoogleCustomSearch.Reply 500 body)
  \/ (exists status e, engine query = GoogleCustomSearch.Reply status (Raise e)) ->
  GoogleCustomSearch.get_first_n_results_urls engine query n = Val None.
Proof.
  unfold GoogleCustomSearch.get_first_n_results_urls, GoogleCustomSearch.search_urls,
    GoogleCustomSearch.ranked_links.
  intros [[e ->] | [[body ->] | [status [e ->]]]]; try reflexivity.
  destruct (raise_for_status status); reflexivity.
Qed.

(* ================================================================= *)
(** ** The stages in front of the gateway *)

(** The stages of [utils/claims.py] and [utils/factcheck.py] return
    whatever the gateway and the validators do. *)
Lemma extract_claims_from_query_returns
  (gw : Gateway) (validate_claims : str -> exc (list str)) (query : str) :
  returns (Claims.extract_claims_from_query gw validate_claims query).
Proof. apply try_except_returns. intros _. apply returns_val. Qed.

Lemma optimize_claim_returns (gw : Gateway) (claim : str) :
  returns (Claims.optimize_claim gw claim).
Proof. apply try_except_returns. intros _. apply returns_val. Qed.

Lemma get_query_for_wiki_article_returns (gw : Gateway) (claim : str) :
  returns (Claims.get_query_for_wiki_article gw claim).
Proof. apply try_except_returns. intros _. apply returns_val. Qed.

Lemma find_answer_in_article_returns
  (gw : Gateway) (validate_verdict : str -> exc ClaimResult) (content claim : str) :
  returns (Factcheck.find_answer_in_article gw validate_verdict content claim).
Proof. apply try_except_returns. intros _. apply returns_val. Qed.

(** So do the stages of the local client that only read the answer. *)
Lemma make_request_returns (m : LocalModel) (prompt : str) (max_tokens : N) :
  returns (_make_request m prompt max_tokens).
Proof. apply try_except_returns. intros _. apply returns_val. Qed.

Lemma local_extract_claims_returns (m : LocalModel) (h : Helpers) (query : str) :
  returns (extract_claims m h query).
Proof.
  unfold extract_claims.
  destruct (make_request_returns m (extract_prompt query) 500) as [[r|] ->]; simpl;
    [|apply returns_val].
  destruct (negb (truthy_json r)); [apply returns_val|].
  apply try_except_returns. intros _. apply returns_val.
Qed.

Lemma local_optimize_claim_returns (m : LocalModel) (claim : str) :
  returns (LocalOpenAIClient.optimize_claim m claim).
Proof.
  unfold LocalOpenAIClient.optimize_claim.
  destruct (make_request_returns m (optimize_prompt claim) 200) as [r ->].
  apply returns_val.
Qed.

Lemma local_get_wiki_article_name_returns (m : LocalModel) (claim : str) :
  returns (get_wiki_article_name m claim).
Proof.
  unfold get_wiki_article_name.
  destruct (make_request_returns m (article_prompt claim) 100) as [r ->].
  apply returns_val.
Qed.

(** [factcheck_claim] returns when the content of the message is a
    string, and also when it is a list; on a number it raises. *)
Lemma factcheck_claim_returns (m : LocalModel) (h : Helpers) (claim content : str) :
  (forall v,
     _make_request m
       (factcheck_prompt claim (_select_relevant_content h claim content)) 1000
     = Val (Some v) ->
     match v with JStr _ | JArr _ | JNull => True | _ => False end) ->
  returns (factcheck_claim m h claim content).
Proof.
  unfold factcheck_claim. intros Hv.
  destruct (make_request_returns m
              (factcheck_prompt claim (_select_relevant_content h claim content)) 1000)
    as [[r|] E]; rewrite E; simpl; [|apply returns_val].
  specialize (Hv r E).
  destruct r as [|b|n|f|t|items|fields]; try contradiction.
  - apply returns_val.
  - destruct (negb (truthy_json (JStr t))); [apply returns_val|]. simpl.
    destruct (search_verdict t) as [found|]; simpl; [|apply returns_val].
    destruct (json_loads h found) as [v|e]; simpl; apply returns_val.
  - destruct (negb (truthy_json (JArr items))); apply returns_val.
Qed.

Lemma factcheck_claim_raises_on_number (h : Helpers) (claim content : str) :
  factcheck_claim (answers (JNum 5)) h claim content = Raise TypeError.
Proof. reflexivity. Qed.

(** The local [find_answer_in_article] raises when the answer of the
    model is a JSON object whose [label] is there and whose [evidence]
    is not a string: the handler builds a [ClaimResult] from the same
    evidence. *)
Lemma local_find_answer_raises
  (m : LocalModel) (h : Helpers) (content claim text object : str)
  (fields : list (str * json)) (l e : json) :
  _make_request m
    (factcheck_prompt claim (_select_relevant_content h claim content)) 1000
    = Val (Some (JStr text)) ->
  text <> "" ->
  search_verdict text = Some object ->
  json_loads h object = Val (JObj fields) ->
  lookup "label" fields = Some l ->
  lookup "evidence" fields = Some e ->
  ~ is_string e ->
  LocalFactcheckFull.find_answer_in_article m h content claim = Raise ValidationError.
Proof.
  intros Hm Ht Hs Hj Hl He Hne.
  unfold LocalFactcheckFull.find_answer_in_article, factcheck_claim.
  rewrite Hm. simpl. apply truthy_spec in Ht. rewrite Ht. simpl.
  rewrite Hs, Hj. simpl.
  destruct fields as [|f fs]; [discriminate|]. cbn [length Nat.eqb negb].
  unfold subscript, get_default, get. rewrite Hl, He. simpl.
  destruct e; try reflexivity; try (destruct l; reflexivity).
  exfalso. apply Hne. exact I.
Qed.

(** C4, at the failing input.  The local judging stage does not convert
    every malformed answer into a marker: when the model answers with
    the JSON object whose label is the string True and whose evidence is
    the number 5, [find_answer_in_article] of
    [utils/local_factcheck_full.py] raises [ValidationError] past its
    own boundary. *)
Theorem local_find_answer_raises_on_number (content claim : str) :
  LocalFactcheckFull.find_answer_in_article
    (answers (JStr verdict_with_number)) helpers_example content claim
  = Raise ValidationError.
Proof.
  apply (local_find_answer_raises _ _ content claim verdict_with_number
           verdict_with_number
           [("label", JStr "True"); ("evidence", JNum 5)] (JStr "True") (JNum 5));
    try reflexivity.
  - discriminate.
  - intros H. exact H.
Qed.

(** The same answer through [utils/factcheck.py] is a marker: the
    handler of the outer [try] returns [None] whatever the validator
    raises, and the fallback verdict when it rejects the text. *)
Lemma openai_find_answer_on_number (content claim : str) :
  Factcheck.find_answer_in_article
    (fun _ _ => GatewayReturns (Some verdict_with_number)) rejects content claim
  = Val (Some {| label := "False"; evidence := verdict_with_number |}).
Proof. reflexivity. Qed.

(** *** [optimize_claim] *)

(** The gateway raises: the claim comes back. *)
Lemma optimize_claim_gateway_raises (gw : Gateway) (claim : str) (e : exn) :
  gw MODEL_CLAIM_OPTIMIZATION (PROMPT_OPTIMIZE_CLAIM claim) = GatewayRaises e ->
  Claims.optimize_claim gw claim = Val claim.
Proof. intros H. unfold Claims.optimize_claim. now rewrite H. Qed.

(** The local client: the claim comes back when the request fails, has
    no choice, or has an empty content. *)
Lemma local_optimize_claim_falls_back (m : LocalModel) (claim : str) (o : option json) :
  _make_request m (optimize_prompt claim) 200 = Val o ->
  match o with Some v => truthy_json v = false | None => True end ->
  LocalOpenAIClient.optimize_claim m claim = Val (JStr claim).
Proof.
  intros H Ho. unfold LocalOpenAIClient.optimize_claim. rewrite H. simpl.
  destruct o as [v|]; simpl; [now rewrite Ho | reflexivity].
Qed.

(** A request that fails ends in [None]. *)
Lemma make_request_failure (m : LocalModel) (prompt : str) (max_tokens : N) :
  (exists e, m prompt max_tokens = PostFailed e)
  \/ (exists body, m prompt max_tokens = ChatResponse 500 body)
  \/ (exists status e, m prompt max_tokens = ChatResponse status (Raise e))
  \/ (exists status, m prompt max_tokens = ChatResponse status (Val (JObj []))) ->
  _make_request m prompt max_tokens = Val None.
Proof.
  unfold _make_request, message_content.
  intros [[e ->] | [[body ->] | [[status [e ->]] | [status ->]]]]; try reflexivity;
    destruct (raise_for_status status); reflexivity.
Qed.

(** An answer of the model is the content of the message. *)
Lemma make_request_answers (content : json) (prompt : str) (max_tokens : N) :
  _make_request (answers content) prompt max_tokens = Val (Some content).
Proof. reflexivity. Qed.

(** C6, at the failing input.  When the gateway returns a response
    without output text, [optimize_claim] of [utils/claims.py] returns
    the empty string, not the claim. *)
Theorem optimize_claim_without_output_text (claim : str) :
  Claims.optimize_claim (fun _ _ => GatewayReturns None) claim = Val ""
  /\ Claims.optimize_claim (fun _ _ => GatewayReturns (Some "")) claim = Val "".
Proof. split; reflexivity. Qed.

(* ================================================================= *)
(** ** Judging: failure and fallback *)








(* ================================================================= *)
(** ** The orchestrator: sequential and concurrent mode *)

Import MainLocal.



Lemma count_raised_perm (l l' : list claim_future) :
  Permutation l l' -> count_raised l = count_raised l'.
Proof.
  induction 1 as [| [c [r|e]] l l' _ IH | [c [r|e]] [c' [r'|e']] l | l l' l'' _ IH _ IH'];
    simpl; congruence.
Qed.




(** A retrieval that raises is caught inside the worker: the claim has
    a report, without a verdict, and no task of the pool raises. *)
Lemma retrieval_failure_is_caught :
  process_single_claim no_retrieval_stages in_order ada_claim 1
  = Val {| claim := ada_claim; optimized := ada_claim;
           article_query := "Ada Lovelace";
           urls := Some [ada_url]; result := None |}
  /\ count_raised
       (claim_futures no_retrieval_stages in_order [ada_claim; "Second claim."] 1)
     = 0%nat
  /\ exists r1 r2,
       process_query_parallel no_retrieval_stages in_order "query" 1
       = Val (0%Z, [r1; r2]).
Proof.
  split; [reflexivity | split; [reflexivity|]].
  eexists. eexists. reflexivity.
Qed.




(* ================================================================= *)
(** * Further properties of the code *)

(** ** Strings *)




Lemma prefix_refl (s : str) : prefix s s = true.
Proof.
  induction s as [|c s IH]; simpl; [reflexivity|].
  destruct (ascii_dec c c); [exact IH | congruence].
Qed.

Lemma prefix_app (a b : str) : prefix a (a ++ b) = true.
Proof.
  induction a as [|c a IH]; simpl; [now destruct b|].
  destruct (ascii_dec c c); [exact IH | congruence].
Qed.

Lemma contains_prefix (x h : str) : prefix x h = true -> contains x h = true.
Proof. intros H. destruct h; cbn [contains]; now rewrite H. Qed.

Lemma contains_here (x b : str) : contains x (x ++ b) = true.
Proof. apply contains_prefix. apply prefix_app. Qed.

Lemma contains_skip (x a b : str) : contains x b = true -> contains x (a ++ b) = true.
Proof.
  intros H. induction a as [|c a IH]; [exact H|].
  change (String c a ++ b) with (String c (a ++ b)). cbn [contains].
  rewrite IH. apply orb_true_r.
Qed.




(** A join of blocks that starts with a non-empty block is not empty. *)
Lemma join_nonempty (sep b : str) (bs : list str) :
  b <> "" -> join sep (b :: bs) <> "".
Proof.
  intros Hb. unfold join. simpl. destruct bs as [|b' bs]; [exact Hb|].
  intros E. apply app_eq_empty in E as [E _]. contradiction.
Qed.

(* ================================================================= *)
(** ** The scraper: what a retrieval returns and the order of its tiers *)

Lemma keep_block_truthy (text : str) : keep_block text = true -> text <> "".
Proof.
  unfold keep_block. intros H. apply andb_true_iff in H as [H _].
  now apply truthy_spec.
Qed.

(** The text of the blocks is never empty. *)
Lemma join_blocks_nonempty (texts : list str) (txt : str) :
  join_blocks texts = Some txt -> txt <> "".
Proof.
  unfold join_blocks.
  destruct (List.filter keep_block texts) as [|b bs] eqn:E; [discriminate|].
  intros [= <-]. apply (join_nonempty blank_line b bs).
  apply keep_block_truthy.
  assert (I : In b (List.filter keep_block texts)) by (rewrite E; now left).
  now apply filter_In in I.
Qed.

Lemma tier_text_nonempty (r : exc (option str)) (txt : str) :
  tier_text r = Some txt -> txt <> "".
Proof.
  destruct r as [[t|]|e]; simpl; try discriminate.
  destruct (truthy t) eqn:E; [|discriminate].
  intros H. inversion H; subst. now apply truthy_spec.
Qed.

Lemma join_blocks_kept (texts : list str) (txt : str) :
  join_blocks texts = Some txt -> kept_blocks txt.
Proof.
  unfold join_blocks.
  destruct (List.filter keep_block texts) as [|b bs] eqn:E; [discriminate|].
  intros [= <-]. exists (b :: bs). split; [discriminate|]. split; [|reflexivity].
  rewrite <- E. apply Forall_forall. intros x Hx.
  apply filter_In in Hx as [_ Hx]. unfold keep_block in Hx.
  apply andb_true_iff in Hx as [_ Hx]. now apply Nat.ltb_lt.
Qed.

Lemma plain_tier_text (w : World) (title txt : str) :
  tier_text (_wiki_rest_plain_text w title) = Some txt ->
  session_get w {| req_url := plain_url title; req_accept := accept_default |}
    = Response 200 txt
  /\ strip txt <> "".
Proof.
  unfold _wiki_rest_plain_text.
  destruct (session_get w _) as [e|status_code text]; [discriminate|].
  destruct (status_code =? 200)%Z eqn:S; [|discriminate].
  destruct (truthy (strip text)) eqn:T; [|discriminate].
  cbn [andb tier_text]. destruct (truthy text); [|discriminate].
  intros [= <-]. apply Z.eqb_eq in S. subst status_code.
  split; [reflexivity | now apply truthy_spec].
Qed.

Lemma mobile_tier_text (w : World) (title txt : str) :
  tier_text (_wiki_rest_mobile_html w title) = Some txt -> kept_blocks txt.
Proof.
  unfold _wiki_rest_mobile_html.
  destruct (session_get w _) as [e|status_code text]; [discriminate|].
  destruct (negb (status_code =? 200)%Z); [discriminate|].
  destruct (mobile_texts w text) as [texts|e]; [|discriminate].
  cbn [bind tier_text]. destruct (join_blocks texts) as [t|] eqn:J; [|discriminate].
  destruct (truthy t); [|discriminate].
  intros [= <-]. now apply join_blocks_kept with texts.
Qed.

Lemma generic_tier_outcome (w : World) (url : str) :
  snd (generic_tier w url) = Val None
  \/ exists txt,
       snd (generic_tier w url) = Val (Some txt) /\ txt <> "" /\ kept_blocks txt.
Proof.
  simpl. unfold _generic_html_scrape.
  destruct (session_get w _) as [e|status_code text]; simpl; [now left|].
  destruct (raise_for_status status_code) as [[]|e]; simpl; [|now left].
  destruct (generic_texts w text) as [texts|e]; simpl; [|now left].
  destruct (join_blocks texts) as [txt|] eqn:E; [|now left].
  right. exists txt. split; [reflexivity|].
  split; [now apply join_blocks_nonempty with texts | now apply join_blocks_kept with texts].
Qed.

Lemma plain_tier_fails_spec (w : World) (title : str) :
  plain_tier_fails w title -> tier_text (_wiki_rest_plain_text w title) = None.
Proof.
  unfold plain_tier_fails, _wiki_rest_plain_text.
  destruct (session_get w _) as [e|status_code text]; [reflexivity|].
  now intros ->.
Qed.

(** X1.  A retrieval never raises, and the content it returns is never the
    empty string.  It is [None], or the body that the plain-text
    endpoint served with status 200, which is not blank once trimmed,
    or the join by blank lines of a non-empty list of blocks of more
    than 10 characters each, from the mobile-HTML tier or the generic
    scrape. *)
Theorem scraped_content_never_empty (w : World) (url : str) :
  snd (WikipediaScraper.scrape_wikipedia_content w url) = Val None
  \/ exists txt,
       snd (WikipediaScraper.scrape_wikipedia_content w url) = Val (Some txt)
       /\ txt <> ""
       /\ ((exists title,
               session_get w
                 {| req_url := plain_url title; req_accept := accept_default |}
                 = Response 200 txt
               /\ strip txt <> "")
           \/ (exists blocks,
                 blocks <> []
                 /\ Forall (fun b => (10 < len b)%nat) blocks
                 /\ txt = join blank_line blocks)).
Proof.
  assert (G : snd (generic_tier w url) = Val None
              \/ exists txt,
                   snd (generic_tier w url) = Val (Some txt)
                   /\ txt <> ""
                   /\ ((exists title,
                           session_get w
                             {| req_url := plain_url title;
                                req_accept := accept_default |}
                             = Response 200 txt
                           /\ strip txt <> "")
                       \/ kept_blocks txt)).
  { destruct (generic_tier_outcome w url) as [N | (txt & E & Hne & K)]; [now left|].
    right. exists txt. auto. }
  unfold WikipediaScraper.scrape_wikipedia_content.
  destruct (_extract_title_from_wiki_url (checks w) url) as [title|]; [|exact G].
  destruct (truthy title); [|exact G].
  unfold wikipedia_tiers.
  destruct (tier_text (_wiki_rest_plain_text w title)) as [txt|] eqn:P.
  { right. exists txt. split; [reflexivity|].
    split; [now apply tier_text_nonempty in P|].
    left. exists title. now apply plain_tier_text. }
  destruct (tier_text (_wiki_rest_mobile_html w title)) as [txt|] eqn:M.
  { right. exists txt. split; [reflexivity|].
    split; [now apply tier_text_nonempty in M|].
    right. now apply mobile_tier_text in M. }
  destruct (generic_tier w url) as [evs r]. exact G.
Qed.

(** X2.  When the plain-text tier gives nothing and the mobile-HTML endpoint
    answers 200 with a page in which at least one selected element has a
    text of more than 10 characters, the retrieval returns those texts
    joined by blank lines; the two REST tiers ran in that order, and
    neither the pause nor the generic scrape took place. *)
Theorem mobile_html_fallback (w : World) (url title html : str) (texts : list str) :
  _extract_title_from_wiki_url (checks w) url = Some title ->
  title <> "" ->
  plain_tier_fails w title ->
  session_get w {| req_url := mobile_html_url title; req_accept := accept_html |}
    = Response 200 html ->
  mobile_texts w html = Val texts ->
  (exists text, In text texts /\ (10 < len text)%nat) ->
  WikipediaScraper.scrape_wikipedia_content w url
  = ([PlainTextTier title; MobileHtmlTier title],
     Val (Some (join blank_line (List.filter keep_block texts)))).
Proof.
  intros Htitle Hne Hplain Hget Htexts [text [Hin Hlen]].
  rewrite (scrape_with_title w url title Htitle Hne).
  unfold wikipedia_tiers.
  rewrite (plain_tier_fails_spec w title Hplain).
  assert (K : In text (List.filter keep_block texts)).
  { apply filter_In. split; [exact Hin|]. unfold keep_block.
    apply andb_true_iff. split.
    - apply truthy_spec. intros ->. simpl in Hlen. lia.
    - now apply Nat.ltb_lt. }
  unfold _wiki_rest_mobile_html. rewrite Hget. simpl. rewrite Htexts. simpl.
  unfold join_blocks.
  destruct (List.filter keep_block texts) as [|b bs] eqn:E; [destruct K|].
  assert (Hb : truthy (join blank_line (b :: bs)) = true).
  { apply truthy_spec. apply join_nonempty. apply keep_block_truthy.
    assert (I : In b (List.filter keep_block texts)) by (rewrite E; now left).
    now apply filter_In in I. }
  cbn [tier_text]. now rewrite Hb.
Qed.

Lemma mobile_html_fallback_witness :
  WikipediaScraper.scrape_wikipedia_content
    (world_with_texts (one_page (mobile_html_url "Ada_Lovelace") "<p>Ada</p>")
       ["Ada Lovelace"; "short"; "English mathematician"])
    "https://en.wikipedia.org/wiki/Ada_Lovelace"
  = ([PlainTextTier "Ada_Lovelace"; MobileHtmlTier "Ada_Lovelace"],
     Val (Some (join blank_line
                  (List.filter keep_block
                     ["Ada Lovelace"; "short"; "English mathematician"])))).
Proof.
  apply (mobile_html_fallback
           (world_with_texts (one_page (mobile_html_url "Ada_Lovelace") "<p>Ada</p>")
              ["Ada Lovelace"; "short"; "English mathematician"])
           "https://en.wikipedia.org/wiki/Ada_Lovelace" "Ada_Lovelace" "<p>Ada</p>").
  - reflexivity.
  - discriminate.
  - reflexivity.
  - reflexivity.
  - reflexivity.
  - exists "Ada Lovelace". split; [now left | simpl; lia].
Defined.

(** X4.  The REST request carries the decoded title as it is: for any title,
    retrieving the article URL in which the title is fully
    percent-encoded asks the plain-text endpoint for the address that
    ends in the title itself, not encoded again, slashes and spaces
    included, and returns the body served there. *)
Theorem rest_request_has_raw_title (w : World) (title body : str) :
  valid_utf8 title = true ->
  title <> "" ->
  session_get w
    {| req_url := "https://en.wikipedia.org/api/rest_v1/page/plain/" ++ title;
       req_accept := accept_default |}
    = Response 200 body ->
  strip body <> "" ->
  WikipediaScraper.scrape_wikipedia_content w
    ("https://en.wikipedia.org/wiki/" ++ quote_with "" title)
  = ([PlainTextTier title], Val (Some body)).
Proof.
  intros Hv Hne Hget Hbody.
  rewrite (scrape_with_title w _ title
             (title_round_trip_all_encoded (checks w) title Hv) Hne).
  unfold wikipedia_tiers.
  now rewrite (plain_text_ok w title body Hget Hbody).
Qed.

Lemma rest_request_has_raw_title_witness :
  WikipediaScraper.scrape_wikipedia_content
    (world_of (one_page "https://en.wikipedia.org/api/rest_v1/page/plain/AC/DC live"
                 "AC/DC are a rock band."))
    "https://en.wikipedia.org/wiki/AC%2FDC%20live"
  = ([PlainTextTier "AC/DC live"], Val (Some "AC/DC are a rock band.")).
Proof.
  apply (rest_request_has_raw_title
           (world_of (one_page "https://en.wikipedia.org/api/rest_v1/page/plain/AC/DC live"
                        "AC/DC are a rock band."))
           "AC/DC live" "AC/DC are a rock band.").
  - reflexivity.
  - discriminate.
  - reflexivity.
  - vm_compute. discriminate.
Defined.

(* ================================================================= *)
(** ** Title extraction: query strings, anchors and sub-pages *)









(* ================================================================= *)
(** ** The search step: counts below one, and malformed items *)

(** X7.  With ranked links in the reply, a count of zero gives the empty list
    (not the absent marker), and a negative count [n] gives the ranked
    links without the last [-n] of them: [urls[:n]] is a slice. *)
Theorem search_count_below_one
  (engine : GoogleCustomSearch.SearchEngine) (query : str) (n : Z)
  (ranked : list json) :
  GoogleCustomSearch.ranked_links (engine query) = Val ranked ->
  ranked <> [] ->
  (n = 0%Z ->
   GoogleCustomSearch.get_first_n_results_urls engine query n = Val (Some []))
  /\ ((n < 0)%Z ->
      GoogleCustomSearch.get_first_n_results_urls engine query n
      = Val (Some (firstn (length ranked - Z.to_nat (- n)) ranked))).
Proof.
  intros Hr Hne.
  unfold GoogleCustomSearch.get_first_n_results_urls, GoogleCustomSearch.search_urls.
  rewrite Hr. simpl.
  destruct ranked as [|u rest]; [contradiction|].
  split.
  - intros ->. reflexivity.
  - intros Hn. unfold slice_to.
    assert (E : (0 <=? n)%Z = false) by (apply Z.leb_gt; exact Hn).
    now rewrite E.
Qed.

Lemma search_count_below_one_witness :
  GoogleCustomSearch.get_first_n_results_urls two_links "Ada Lovelace" 0
  = Val (Some [])
  /\ GoogleCustomSearch.get_first_n_results_urls two_links "Ada Lovelace" (-1)
     = Val (Some [JStr "http://a"]).
Proof.
  split.
  - apply (proj1 (search_count_below_one two_links "Ada Lovelace" 0
                    [JStr "http://a"; JStr "http://b"] eq_refl
                    ltac:(discriminate))).
    reflexivity.
  - apply (proj2 (search_count_below_one two_links "Ada Lovelace" (-1)
                    [JStr "http://a"; JStr "http://b"] eq_refl
                    ltac:(discriminate))).
    reflexivity.
Defined.

(** An item without the method [get] makes the comprehension raise. *)
Lemma links_raise_on_malformed (items : list json) (item : json) :
  In item items ->
  (forall fields, item <> JObj fields) ->
  exists e, GoogleCustomSearch.links items = Raise e.
Proof.
  intros Hin Hbad. induction items as [|x items IH]; [destruct Hin|].
  cbn [GoogleCustomSearch.links].
  destruct Hin as [-> | Hin].
  - destruct item; try (eexists; reflexivity).
    exfalso. now apply (Hbad fields).
  - destruct (IH Hin) as [e E].
    destruct (get x "link") as [[v|]|e']; cbn [bind];
      try (eexists; reflexivity); try (exists e; exact E).
    destruct (truthy_json v); [|exists e; exact E].
    rewrite E. eexists. reflexivity.
Qed.

(** X8.  One item that is not a JSON object voids the whole reply: the
    search returns the absent marker even when other items carry
    links. *)
Theorem malformed_item_voids_search
  (engine : GoogleCustomSearch.SearchEngine) (query : str) (n status_code : Z)
  (data : json) (items : list json) (item : json) :
  engine query = GoogleCustomSearch.Reply status_code (Val data) ->
  get_default data "items" (JArr []) = Val (JArr items) ->
  In item items ->
  (forall fields, item <> JObj fields) ->
  GoogleCustomSearch.get_first_n_results_urls engine query n = Val None.
Proof.
  intros Hreply Hitems Hin Hbad.
  unfold GoogleCustomSearch.get_first_n_results_urls, GoogleCustomSearch.search_urls,
    GoogleCustomSearch.ranked_links.
  rewrite Hreply.
  destruct (raise_for_status status_code) as [[]|e]; [|reflexivity].
  cbn [bind]. rewrite Hitems. cbn [bind iterate].
  destruct (links_raise_on_malformed items item Hin Hbad) as [e E].
  now rewrite E.
Qed.

Lemma malformed_item_voids_search_witness :
  GoogleCustomSearch.get_first_n_results_urls
    (fun _ => GoogleCustomSearch.Reply 200
                (Val (JObj [("items",
                             JArr [JObj [("link", JStr "http://a")];
                                   JStr "http://b"])])))
    "Ada Lovelace" 1
  = Val None.
Proof.
  apply (malformed_item_voids_search _ "Ada Lovelace" 1 200
           (JObj [("items",
                   JArr [JObj [("link", JStr "http://a")]; JStr "http://b"])])
           [JObj [("link", JStr "http://a")]; JStr "http://b"]
           (JStr "http://b")).
  - reflexivity.
  - reflexivity.
  - right. now left.
  - discriminate.
Defined.

(* ================================================================= *)
(** ** The local client: the request and the patterns *)


Lemma until_bracket_found (s body : str) :
  until_bracket s = Some body ->
  exists post,
    s = body ++ String "]" post
    /\ mem "]" body = false /\ mem newline body = false.
Proof.
  revert body. induction s as [|c s IH]; intros body; cbn [until_bracket];
    [discriminate|].
  destruct (Ascii.eqb_spec c "]") as [->|Hb].
  { intros [= <-]. exists s. repeat split. }
  destruct (Ascii.eqb_spec c (ascii_of_N 10)) as [->|Hn]; [discriminate|].
  destruct (until_bracket s) as [body'|]; [|discriminate].
  intros [= <-]. destruct (IH body' eq_refl) as (post & -> & H1 & H2).
  exists post. split; [reflexivity|]. cbn [mem]. rewrite H1, H2.
  split; rewrite orb_false_r; apply Ascii.eqb_neq; intros E;
    [apply Hb | apply Hn]; symmetry; exact E.
Qed.

(** X10.  What the pattern of [extract_claims] finds in an answer: a bracket,
    then text without a closing bracket and without a line feed, then
    the first closing bracket.  An array with an array inside, or with a
    closing bracket in one of its strings, or written over several
    lines, is therefore never found whole. *)
Theorem first_bracket_group (s found : str) :
  search_array s = Some found ->
  exists pre body post,
    s = pre ++ "[" ++ body ++ "]" ++ post
    /\ found = "[" ++ body ++ "]"
    /\ mem "]" body = false
    /\ mem newline body = false.
Proof.
  induction s as [|c s IH]; cbn [search_array]; [discriminate|].
  destruct (Ascii.eqb_spec c "[") as [->|Hc].
  - destruct (until_bracket s) as [body|] eqn:U.
    + intros [= <-]. destruct (until_bracket_found s body U) as (post & -> & H1 & H2).
      exists "", body, post. repeat split; assumption.
    + intros H. destruct (IH H) as (pre & body & post & -> & Hf & H1 & H2).
      exists (String "[" pre), body, post. repeat split; assumption.
  - intros H. destruct (IH H) as (pre & body & post & -> & Hf & H1 & H2).
    exists (String c pre), body, post. repeat split; assumption.
Qed.

Lemma first_bracket_group_witness :
  exists pre body post,
    "Claims: [[1], 2] and more" = pre ++ "[" ++ body ++ "]" ++ post
    /\ "[[1]" = "[" ++ body ++ "]"
    /\ mem "]" body = false
    /\ mem newline body = false.
Proof.
  apply (first_bracket_group "Claims: [[1], 2] and more" "[[1]").
  reflexivity.
Defined.

(** X11.  [extract_claims] never raises.  When the model answers with a
    string in which the pattern finds a group that [json.loads] turns
    into a list, the result is that list, whatever its items are: they
    are not checked to be strings.  In every other case the result is
    the empty list. *)
Theorem extract_claims_only_parsed_arrays (m : LocalModel) (h : Helpers) (query : str) :
  (exists claims, extract_claims m h query = Val claims)
  /\ (forall text found items,
        _make_request m (extract_prompt query) 500 = Val (Some (JStr text)) ->
        search_array text = Some found ->
        json_loads h found = Val (JArr items) ->
        extract_claims m h query = Val items)
  /\ (forall claims,
        extract_claims m h query = Val claims ->
        claims <> [] ->
        exists text found,
          _make_request m (extract_prompt query) 500 = Val (Some (JStr text))
          /\ search_array text = Some found
          /\ json_loads h found = Val (JArr claims)).
Proof.
  split; [apply local_extract_claims_returns|]. split.
  - intros text found items R F L.
    assert (T : truthy text = true).
    { apply truthy_spec. intros ->. discriminate. }
    unfold extract_claims. rewrite R. cbn [bind truthy_json]. rewrite T.
    cbn [negb text_of bind]. now rewrite F, L.
  - unfold extract_claims. intros claims.
    destruct (_make_request m (extract_prompt query) 500) as [[response|]|e] eqn:R;
      cbn [bind]; [| intros [= <-] N; contradiction | discriminate].
    destruct (truthy_json response); cbn [negb];
      [| intros [= <-] N; contradiction].
    destruct response as [| b | z | f | text | l | fs];
      try (intros [= <-] N; contradiction).
    cbn [text_of bind].
    destruct (search_array text) as [found|] eqn:F;
      [| intros [= <-] N; contradiction].
    destruct (json_loads h found) as [parsed|e] eqn:L;
      [| intros [= <-] N; contradiction].
    destruct parsed as [| b | z | f | s | items | fs];
      try (intros [= <-] N; contradiction).
    intros [= <-] _. exists text, found. repeat split; assumption.
Qed.

Lemma extract_claims_only_parsed_arrays_witness :
  extract_claims (answers (JStr "Claims: [1, 2]")) numbers_helpers "query"
  = Val [JNum 1; JNum 2].
Proof.
  destruct (extract_claims_only_parsed_arrays
              (answers (JStr "Claims: [1, 2]")) numbers_helpers "query")
    as (_ & H & _).
  apply (H "Claims: [1, 2]" "[1, 2]"); reflexivity.
Defined.



(* ================================================================= *)
(** ** The local judge: the fallback reading and the verdict *)




(** X14.  A verdict the pattern finds and [json.loads] parses is passed on as
    it is when its label and evidence are strings: the label is not
    checked to be ["True"] or ["False"]. *)
Theorem local_verdict_label_unchecked
  (m : LocalModel) (h : Helpers) (content claim text found l e : str)
  (fields : list (str * json)) :
  _make_request m (factcheck_prompt claim (_select_relevant_content h claim content)) 1000
    = Val (Some (JStr text)) ->
  search_verdict text = Some found ->
  json_loads h found = Val (JObj fields) ->
  lookup "label" fields = Some (JStr l) ->
  lookup "evidence" fields = Some (JStr e) ->
  LocalFactcheckFull.find_answer_in_article m h content claim
  = Val (Some {| label := l; evidence := e |}).
Proof.
  intros R F L Hl He.
  assert (T : truthy text = true).
  { apply truthy_spec. intros ->. discriminate. }
  assert (N : fields <> []) by (intros ->; discriminate).
  unfold LocalFactcheckFull.find_answer_in_article, factcheck_claim.
  cbv zeta. rewrite R. cbn [bind truthy_json]. rewrite T.
  cbn [negb text_of bind]. rewrite F, L. cbn [bind try_except].
  destruct fields as [|f fs]; [contradiction|].
  cbn [truthy_json length Nat.eqb negb subscript]. rewrite Hl, He. reflexivity.
Qed.

Lemma local_verdict_label_unchecked_witness :
  LocalFactcheckFull.find_answer_in_article
    (answers (JStr verdict_maybe))
    (helpers_with (loads_as verdict_maybe
                     (JObj [("label", JStr "Maybe"); ("evidence", JStr "born in 1815")])))
    "content" "claim"
  = Val (Some {| label := "Maybe"; evidence := "born in 1815" |}).
Proof.
  apply (local_verdict_label_unchecked _ _ "content" "claim" verdict_maybe verdict_maybe
           "Maybe" "born in 1815"
           [("label", JStr "Maybe"); ("evidence", JStr "born in 1815")]);
    reflexivity.
Defined.

(** X15.  A verdict whose label is missing or not a string, or whose evidence
    is missing, is reported as ["False"]: the handler of
    [find_answer_in_article] keeps the evidence when it is a string and
    takes the empty string when there is none.  A label ["True"] next
    to a missing evidence is lost in this way. *)
Theorem local_verdict_defaults_to_false
  (m : LocalModel) (h : Helpers) (content claim e : str)
  (fields : list (str * json)) :
  factcheck_claim m h claim content = Val (Some (JObj fields)) ->
  fields <> [] ->
  (forall l, lookup "label" fields <> Some (JStr l))
  \/ lookup "evidence" fields = None ->
  match lookup "evidence" fields with
  | Some v => v = JStr e
  | None => e = ""
  end ->
  LocalFactcheckFull.find_answer_in_article m h content claim
  = Val (Some {| label := "False"; evidence := e |}).
Proof.
  intros R N Hbad He.
  unfold LocalFactcheckFull.find_answer_in_article. rewrite R. cbn [bind].
  destruct fields as [|f fs]; [contradiction|].
  cbn [truthy_json length Nat.eqb negb subscript get_default get bind].
  destruct (lookup "evidence" (f :: fs)) as [v|] eqn:E.
  - subst v. destruct Hbad as [Hbad | Hbad]; [|discriminate].
    destruct (lookup "label" (f :: fs)) as [lv|] eqn:L; [|reflexivity].
    cbn [bind]. destruct lv; try reflexivity.
    exfalso. now apply (Hbad s).
  - subst e. destruct (lookup "label" (f :: fs)) as [lv|]; reflexivity.
Qed.

Lemma local_verdict_defaults_to_false_witness :
  LocalFactcheckFull.find_answer_in_article
    (answers (JStr verdict_bool))
    (helpers_with (loads_as verdict_bool
                     (JObj [("label", JBool true); ("evidence", JStr "born in 1815")])))
    "content" "claim"
  = Val (Some {| label := "False"; evidence := "born in 1815" |}).
Proof.
  apply (local_verdict_defaults_to_false _ _ "content" "claim" "born in 1815"
           [("label", JBool true); ("evidence", JStr "born in 1815")]).
  - reflexivity.
  - discriminate.
  - left. intros l. discriminate.
  - reflexivity.
Defined.

Lemma or_claim_truthy (response : option json) (claim : str) :
  claim <> "" -> truthy_json (or_claim response claim) = true.
Proof.
  intros H. apply truthy_spec in H. unfold or_claim.
  destruct response as [r|]; [|exact H].
  destruct (truthy_json r) eqn:T; [exact T | exact H].
Qed.

(** [response if response else claim]: the answer, or the claim when
    there is no answer that counts. *)
Lemma or_claim_cases (response : option json) (claim : str) :
  response = Some (or_claim response claim)
  \/ (or_claim response claim = JStr claim
      /\ forall r, response = Some r -> truthy_json r = false).
Proof.
  unfold or_claim. destruct response as [r|].
  - destruct (truthy_json r) eqn:T; [now left|].
    right. split; [reflexivity|]. now intros r' [= <-].
  - right. split; [reflexivity | discriminate].
Qed.

(** X16.  The two text stages of the local client never hand an empty value
    on: for a non-empty claim, [optimize_claim] and
    [get_wiki_article_name] return (they do not raise) a value that is
    true in a test, and that value is the answer [_make_request] got
    from the model or, when there is no answer or one that is false in
    a test, the claim itself. *)
Theorem local_text_stages_never_empty (m : LocalModel) (claim : str) :
  claim <> "" ->
  (exists v,
     LocalOpenAIClient.optimize_claim m claim = Val v
     /\ truthy_json v = true
     /\ (_make_request m (optimize_prompt claim) 200 = Val (Some v)
         \/ (v = JStr claim
             /\ forall r,
                  _make_request m (optimize_prompt claim) 200 = Val (Some r) ->
                  truthy_json r = false)))
  /\ (exists v,
        get_wiki_article_name m claim = Val v
        /\ truthy_json v = true
        /\ (_make_request m (article_prompt claim) 100 = Val (Some v)
            \/ (v = JStr claim
                /\ forall r,
                     _make_request m (article_prompt claim) 100 = Val (Some r) ->
                     truthy_json r = false))).
Proof.
  intros H. split.
  - unfold LocalOpenAIClient.optimize_claim.
    destruct (make_request_returns m (optimize_prompt claim) 200) as [r ->].
    exists (or_claim r claim). split; [reflexivity|].
    split; [now apply or_claim_truthy|].
    destruct (or_claim_cases r claim) as [E | [E F]].
    + left. now rewrite <- E.
    + right. split; [exact E|]. intros r' [= ->]. now apply F.
  - unfold get_wiki_article_name.
    destruct (make_request_returns m (article_prompt claim) 100) as [r ->].
    exists (or_claim r claim). split; [reflexivity|].
    split; [now apply or_claim_truthy|].
    destruct (or_claim_cases r claim) as [E | [E F]].
    + left. now rewrite <- E.
    + right. split; [exact E|]. intros r' [= ->]. now apply F.
Qed.

Lemma local_text_stages_never_empty_witness :
  (exists v,
     LocalOpenAIClient.optimize_claim (answers (JStr "")) ada_claim = Val v
     /\ truthy_json v = true
     /\ (_make_request (answers (JStr "")) (optimize_prompt ada_claim) 200
         = Val (Some v)
         \/ (v = JStr ada_claim
             /\ forall r,
                  _make_request (answers (JStr "")) (optimize_prompt ada_claim) 200
                  = Val (Some r) ->
                  truthy_json r = false)))
  /\ (exists v,
        get_wiki_article_name (answers (JStr "")) ada_claim = Val v
        /\ truthy_json v = true
        /\ (_make_request (answers (JStr "")) (article_prompt ada_claim) 100
            = Val (Some v)
            \/ (v = JStr ada_claim
                /\ forall r,
                     _make_request (answers (JStr "")) (article_prompt ada_claim) 100
                     = Val (Some r) ->
                     truthy_json r = false))).
Proof.
  apply (local_text_stages_never_empty (answers (JStr "")) ada_claim).
  discriminate.
Defined.

(* ================================================================= *)
(** ** The prompts of the judge *)

Ltac find_in_prompt :=
  repeat first [ apply contains_here
               | apply contains_prefix; apply prefix_refl
               | apply contains_skip ].

(** X17.  The test [test_prompt_factcheck_safe] for every claim and every
    content: the prompt of the judge contains the claim, the content,
    which stands at its end, and the line that shows the JSON format
    with its braces.  The prompt [factcheck_claim] of the local client
    sends is built on the content [_select_relevant_content] selects:
    it contains the claim, the selected content and the format line,
    and the whole content when that has at most 8000 characters. *)
Theorem prompt_factcheck_contains (h : Helpers) (claim scraped : str) :
  (contains claim (PROMPT_FACTCHECK claim scraped) = true
   /\ contains scraped (PROMPT_FACTCHECK claim scraped) = true
   /\ contains ("{" ++ quoted "label" ++ ": " ++ quoted "True" ++ " or " ++ quoted "False")
        (PROMPT_FACTCHECK claim scraped) = true)
  /\ (contains claim
        (factcheck_prompt claim (_select_relevant_content h claim scraped)) = true
      /\ contains (_select_relevant_content h claim scraped)
           (factcheck_prompt claim (_select_relevant_content h claim scraped)) = true
      /\ contains ("{" ++ quoted "label" ++ ": " ++ quoted "True" ++ " or " ++ quoted "False")
           (factcheck_prompt claim (_select_relevant_content h claim scraped)) = true
      /\ ((N.of_nat (len scraped) <= 8000)%N ->
          contains scraped
            (factcheck_prompt claim (_select_relevant_content h claim scraped)) = true)).
Proof.
  split; [split; [|split] | split; [|split; [|split]]].
  - unfold PROMPT_FACTCHECK. find_in_prompt.
  - unfold PROMPT_FACTCHECK. find_in_prompt.
  - reflexivity.
  - unfold factcheck_prompt. find_in_prompt.
  - unfold factcheck_prompt. find_in_prompt.
  - reflexivity.
  - intros L. unfold _select_relevant_content.
    assert (E : (N.of_nat (len scraped) <=? 8000)%N = true) by (now apply N.leb_le).
    rewrite E. unfold factcheck_prompt. find_in_prompt.
Qed.

(* ================================================================= *)
(** ** The orchestrator: which page is judged *)

Lemma collect_contents_In (l : list scrape_future) (url content : str) :
  In (url, content) (collect_contents l)
  <-> In (url, Val (Some content)) l /\ content <> "".
Proof.
  induction l as [|[u r] l IH]; simpl; [tauto|].
  destruct r as [[c|]|e].
  - destruct (truthy c) eqn:T.
    + simpl. rewrite IH. apply truthy_spec in T. split.
      * intros [[= -> ->] | [H1 H2]]; auto.
      * intros [[[= -> ->] | H1] H2]; auto.
    + rewrite IH. apply truthy_false in T. subst c. split.
      * intros [H1 H2]; auto.
      * intros [[[= -> <-] | H1] H2]; [contradiction | auto].
  - rewrite IH. split; [intros [H1 H2]; auto|].
    intros [[H | H1] H2]; [discriminate | auto].
  - rewrite IH. split; [intros [H1 H2]; auto|].
    intros [[H | H1] H2]; [discriminate | auto].
Qed.

Lemma collect_contents_perm (l l' : list scrape_future) :
  Permutation l l' -> Permutation (collect_contents l) (collect_contents l').
Proof.
  induction 1 as [| [u r] l l' _ IH | [u r] [u' r'] l | l l' l'' _ IH _ IH'].
  - constructor.
  - simpl. destruct r as [[c|]|e]; [destruct (truthy c)|..]; auto.
  - simpl. destruct r as [[c|]|e]; [destruct (truthy c)|..];
      (destruct r' as [[c'|]|e']; [destruct (truthy c')|..]);
      try apply Permutation_refl; apply perm_swap.
  - now transitivity (collect_contents l').
Qed.

Lemma scrape_future_In (st : Stages) (found : list str) (url : str) (r : exc (option str)) :
  In (url, r) (List.map (fun url => (url, scrape_wikipedia_content st url)) found)
  <-> In url found /\ scrape_wikipedia_content st url = r.
Proof.
  rewrite in_map_iff. split.
  - intros [u [[= -> <-] H]]. auto.
  - intros [H <-]. exists url. auto.
Qed.

(** X18.  What [process_single_claim] does once the three calls in front of
    the retrieval have returned.  Without a URL the report has neither
    URLs nor a verdict.  With URLs of which none gives content, a
    retrieval that raises counting as none, the report has the URLs and
    no verdict.  Otherwise one page is judged; it is the non-empty
    content retrieved from one of the URLs, and the report carries the
    verdict of [find_answer_in_article] on it; the worker raises only
    if that call does. *)
Theorem process_single_claim_cases
  (st : Stages) (sch : Completion) (c o q : str) (top_n_urls : Z)
  (found : option (list str)) :
  optimize_claim st c = Val o ->
  get_query_for_wiki_article st c = Val q ->
  get_first_n_results_urls st q top_n_urls = Val found ->
  ((found = None \/ found = Some [])
   /\ process_single_claim st sch c top_n_urls
      = Val {| claim := c; optimized := o; article_query := q;
               urls := None; result := None |})
  \/ (exists l,
        found = Some l /\ l <> []
        /\ (forall url content,
              In url l -> scrape_wikipedia_content st url = Val (Some content) ->
              content = "")
        /\ process_single_claim st sch c top_n_urls
           = Val {| claim := c; optimized := o; article_query := q;
                    urls := found; result := None |})
  \/ (exists l url content,
        found = Some l
        /\ In url l
        /\ scrape_wikipedia_content st url = Val (Some content)
        /\ content <> ""
        /\ process_single_claim st sch c top_n_urls
           = (r <- find_answer_in_article st content c ;;
              Val {| claim := c; optimized := o; article_query := q;
                     urls := found; result := r |})).
Proof.
  intros Ho Hq Hf. unfold process_single_claim. rewrite Ho, Hq. cbn [bind].
  rewrite Hf. cbn [bind].
  destruct found as [[|u us]|]; [left; split; auto | | left; split; auto].
  right.
  set (futures := List.map (fun url => (url, scrape_wikipedia_content st url)) (u :: us)).
  assert (P : Permutation (collect_contents futures)
                (collect_contents (scrapes_completed sch futures))).
  { apply collect_contents_perm, scrapes_completed_perm. }
  destruct (collect_contents (scrapes_completed sch futures)) as [|[url content] rest].
  - left. exists (u :: us). split; [reflexivity|]. split; [discriminate|].
    split; [|reflexivity].
    intros url content Hin Hs.
    destruct (String.eqb_spec content "") as [E|E]; [exact E|].
    exfalso. apply Permutation_sym, Permutation_nil in P.
    assert (I : In (url, content) (collect_contents futures)).
    { apply collect_contents_In. split; [|exact E].
      apply scrape_future_In. auto. }
    rewrite P in I. destruct I.
  - right. exists (u :: us), url, content.
    assert (I : In (url, content) (collect_contents futures)).
    { apply Permutation_sym in P. apply (Permutation_in _ P). now left. }
    apply collect_contents_In in I as [I Hne].
    apply scrape_future_In in I as [Hin Hs].
    repeat split; assumption.
Qed.

Lemma process_single_claim_cases_witness :
  ((Some [ada_url] = None \/ Some [ada_url] = Some [])
   /\ process_single_claim stub_stages in_order ada_claim 1
      = Val {| claim := ada_claim; optimized := ada_claim;
               article_query := "Ada Lovelace"; urls := None; result := None |})
  \/ (exists l,
        Some [ada_url] = Some l /\ l <> []
        /\ (forall url content,
              In url l ->
              scrape_wikipedia_content stub_stages url = Val (Some content) ->
              content = "")
        /\ process_single_claim stub_stages in_order ada_claim 1
           = Val {| claim := ada_claim; optimized := ada_claim;
                    article_query := "Ada Lovelace";
                    urls := Some [ada_url]; result := None |})
  \/ (exists l url content,
        Some [ada_url] = Some l
        /\ In url l
        /\ scrape_wikipedia_content stub_stages url = Val (Some content)
        /\ content <> ""
        /\ process_single_claim stub_stages in_order ada_claim 1
           = (r <- find_answer_in_article stub_stages content ada_claim ;;
              Val {| claim := ada_claim; optimized := ada_claim;
                     article_query := "Ada Lovelace";
                     urls := Some [ada_url]; result := r |})).
Proof.
  apply (process_single_claim_cases stub_stages in_order ada_claim ada_claim
           "Ada Lovelace" 1 (Some [ada_url])); reflexivity.
Defined.

Lemma Permutation_short {A} (l l' : list A) :
  Permutation l l' -> (length l <= 1)%nat -> l' = l.
Proof.
  intros P H. destruct l as [|x [|y l]].
  - now apply Permutation_nil in P.
  - now apply Permutation_length_1_inv in P.
  - simpl in H. lia.
Qed.

(** X19.  The order in which the retrievals finish matters only when several
    URLs give content: when at most one of the URLs the search returns
    does, the worker does the same under every completion order. *)
Theorem single_page_order_independent
  (st : Stages) (sch sch' : Completion) (c : str) (top_n_urls : Z) :
  (forall q found,
     get_first_n_results_urls st q top_n_urls = Val (Some found) ->
     (length (retrieved st found) <= 1)%nat) ->
  process_single_claim st sch c top_n_urls
  = process_single_claim st sch' c top_n_urls.
Proof.
  intros H. unfold process_single_claim.
  destruct (optimize_claim st c) as [o|e]; [|reflexivity]. cbn [bind].
  destruct (get_query_for_wiki_article st c) as [q|e]; [|reflexivity]. cbn [bind].
  destruct (get_first_n_results_urls st q top_n_urls) as [found|e] eqn:F;
    [|reflexivity].
  cbn [bind]. destruct found as [[|u us]|]; try reflexivity.
  specialize (H q (u :: us) F). unfold retrieved in H.
  set (futures := List.map (fun url => (url, scrape_wikipedia_content st url)) (u :: us))
    in *.
  rewrite (Permutation_short _ _
             (collect_contents_perm _ _ (scrapes_completed_perm sch futures)) H).
  rewrite (Permutation_short _ _
             (collect_contents_perm _ _ (scrapes_completed_perm sch' futures)) H).
  reflexivity.
Qed.

Lemma single_page_order_independent_witness :
  process_single_claim two_url_stages in_order ada_claim 2
  = process_single_claim two_url_stages reversed ada_claim 2.
Proof.
  apply (single_page_order_independent two_url_stages in_order reversed ada_claim 2).
  intros q found [= <-]. simpl. lia.
Defined.

(** X20.  [main.py] and [main_local.py] on a claim for which the search
    returns one URL.  When the retrieval of that URL returns, the worker
    of [main_local.py] reports the verdict of the loop body of
    [main.py], and raises when it raises.  When the retrieval raises,
    the loop of [main.py] raises, while the worker of [main_local.py]
    reports the claim without a verdict. *)
Theorem one_url_pipelines_agree
  (st : Stages) (sch : Completion) (c o q u : str) (top_n_urls : Z) :
  optimize_claim st c = Val o ->
  get_query_for_wiki_article st c = Val q ->
  get_first_n_results_urls st q top_n_urls = Val (Some [u]) ->
  match scrape_wikipedia_content st u with
  | Val _ =>
      process_single_claim st sch c top_n_urls
      = (out <- MainQuery.loop_body st c top_n_urls ;;
         Val {| claim := c; optimized := o; article_query := q;
                urls := Some [u]; result := verdict_of out |})
  | Raise e =>
      MainQuery.loop_body st c top_n_urls = Raise e
      /\ process_single_claim st sch c top_n_urls
         = Val {| claim := c; optimized := o; article_query := q;
                  urls := Some [u]; result := None |}
  end.
Proof.
  intros Ho Hq Hf. unfold process_single_claim, MainQuery.loop_body.
  rewrite Ho, Hq. cbn [bind]. rewrite Hf. cbn [bind List.map].
  assert (P : scrapes_completed sch [(u, scrape_wikipedia_content st u)]
              = [(u, scrape_wikipedia_content st u)]).
  { apply Permutation_length_1_inv. apply scrapes_completed_perm. }
  rewrite P.
  destruct (scrape_wikipedia_content st u) as [[content|]|e]; cbn [collect_contents bind].
  - destruct (truthy content); [|reflexivity].
    destruct (find_answer_in_article st content c) as [r|e]; reflexivity.
  - reflexivity.
  - split; reflexivity.
Qed.

Lemma one_url_pipelines_agree_witness :
  match scrape_wikipedia_content stub_stages ada_url with
  | Val _ =>
      process_single_claim stub_stages in_order ada_claim 1
      = (out <- MainQuery.loop_body stub_stages ada_claim 1 ;;
         Val {| claim := ada_claim; optimized := ada_claim;
                article_query := "Ada Lovelace";
                urls := Some [ada_url]; result := verdict_of out |})
  | Raise e =>
      MainQuery.loop_body stub_stages ada_claim 1 = Raise e
      /\ process_single_claim stub_stages in_order ada_claim 1
         = Val {| claim := ada_claim; optimized := ada_claim;
                  article_query := "Ada Lovelace";
                  urls := Some [ada_url]; result := None |}
  end.
Proof.
  apply (one_url_pipelines_agree stub_stages in_order ada_claim ada_claim
           "Ada Lovelace" ada_url 1); reflexivity.
Defined.

Lemma worker_matches_loop_body
  (st : Stages) (sch : Completion) (c : str) (top_n_urls : Z) :
  (forall q found,
     get_first_n_results_urls st q top_n_urls = Val (Some found) ->
     (length found <= 1)%nat) ->
  (forall url, returns (scrape_wikipedia_content st url)) ->
  (r <- process_single_claim st sch c top_n_urls ;; Val (result r))
  = (o <- MainQuery.loop_body st c top_n_urls ;; Val (verdict_of o)).
Proof.
  intros H1 H2. unfold process_single_claim, MainQuery.loop_body.
  destruct (optimize_claim st c) as [o|e]; [|reflexivity]. cbn [bind].
  destruct (get_query_for_wiki_article st c) as [q|e]; [|reflexivity]. cbn [bind].
  destruct (get_first_n_results_urls st q top_n_urls) as [found|e] eqn:F;
    [|reflexivity].
  cbn [bind]. destruct found as [[|u [|v us]]|]; try reflexivity.
  - cbn [List.map].
    assert (P : scrapes_completed sch [(u, scrape_wikipedia_content st u)]
                = [(u, scrape_wikipedia_content st u)]).
    { apply Permutation_length_1_inv. apply scrapes_completed_perm. }
    rewrite P. destruct (H2 u) as [content ->]. cbn [collect_contents bind].
    destruct content as [content|]; [|reflexivity].
    destruct (truthy content); [|reflexivity].
    destruct (find_answer_in_article st content c) as [r|e]; reflexivity.
  - specialize (H1 q _ F). simpl in H1. lia.
Qed.

(** X21.  The sequential mode of [main_local.py] and [process_query] of
    [main.py] over the same stages, when the search returns at most one
    URL for a claim (as it does for the default count of one) and the
    retrieval does not raise (the scraper never does): both return the
    exit code 0 with the same verdicts, claim by claim and in the order
    of the claims, or both raise the same exception. *)
Theorem sequential_pipelines_agree
  (st : Stages) (sch : Completion) (query : str) (top_n_urls : Z) :
  (forall q found,
     get_first_n_results_urls st q top_n_urls = Val (Some found) ->
     (length found <= 1)%nat) ->
  (forall url, returns (scrape_wikipedia_content st url)) ->
  (rs <- process_query_sequential st sch query top_n_urls ;;
   Val (fst rs, List.map result (snd rs)))
  = (os <- MainQuery.process_query st query top_n_urls ;;
     Val (fst os, List.map verdict_of (snd os))).
Proof.
  intros H1 H2.
  assert (E : forall claims,
            (rs <- process_each st sch claims top_n_urls ;; Val (List.map result rs))
            = (os <- MainQuery.for_each_claim st claims top_n_urls ;;
               Val (List.map verdict_of os))).
  { induction claims as [|c claims IH]; [reflexivity|].
    cbn [process_each MainQuery.for_each_claim].
    pose proof (worker_matches_loop_body st sch c top_n_urls H1 H2) as W.
    destruct (process_single_claim st sch c top_n_urls) as [r|e];
      destruct (MainQuery.loop_body st c top_n_urls) as [o|e'];
      cbn [bind] in *; try discriminate; [|now inversion W].
    destruct (process_each st sch claims top_n_urls) as [rs|e];
      destruct (MainQuery.for_each_claim st claims top_n_urls) as [os|e'];
      cbn [bind] in *; try discriminate; [|now inversion IH].
    inversion W. inversion IH. cbn [List.map]. congruence. }
  unfold process_query_sequential, MainQuery.process_query.
  destruct (extract_claims_from_query st query) as [claims|e]; [|reflexivity].
  cbn [bind]. specialize (E claims).
  destruct claims as [|c claims]; [reflexivity|].
  destruct (process_each st sch (c :: claims) top_n_urls) as [rs|e];
    destruct (MainQuery.for_each_claim st (c :: claims) top_n_urls) as [os|e'];
    cbn [bind fst snd] in *; try discriminate.
  - inversion E. reflexivity.
  - now inversion E.
Qed.

Lemma sequential_pipelines_agree_witness :
  (rs <- process_query_sequential stub_stages in_order "query" 1 ;;
   Val (fst rs, List.map result (snd rs)))
  = (os <- MainQuery.process_query stub_stages "query" 1 ;;
     Val (fst os, List.map verdict_of (snd os))).
Proof.
  apply (sequential_pipelines_agree stub_stages in_order "query" 1).
  - intros q found [= <-]. simpl. lia.
  - intros url. eexists. reflexivity.
Defined.

(* ================================================================= *)
(** ** The test runner: results and score *)

Lemma eq_str_spec (v : json) (s : str) :
  FullLocalTest.eq_str v s = true <-> v = JStr s.
Proof.
  destruct v; simpl; try (split; intros; discriminate).
  destruct (String.eqb_spec s0 s) as [->|N]; split; intros H;
    try reflexivity; try discriminate.
  inversion H. contradiction.
Qed.

(** X22.  The result of one test.  The identification of the test is copied.
    An error is recorded exactly when there is no predicted label, the
    evidence is there exactly when the label is, and the test counts as
    correct exactly when the predicted label is the expected one.  (No
    call of a stage can make [test_single_claim] raise: all of them are
    inside its [try].) *)
Theorem test_result_invariant (st : Stages) (t : FullLocalTest.TestData) :
  let r := FullLocalTest.test_single_claim st t in
  FullLocalTest.test_id r = FullLocalTest.data_id t
  /\ FullLocalTest.claim r = FullLocalTest.data_claim t
  /\ FullLocalTest.expected_label r = FullLocalTest.data_expected_label t
  /\ (FullLocalTest.error r = None <-> FullLocalTest.predicted_label r <> None)
  /\ (FullLocalTest.predicted_label r = None <-> FullLocalTest.evidence r = None)
  /\ (FullLocalTest.is_correct r = true
      <-> exists l, FullLocalTest.predicted_label r = Some l
                    /\ FullLocalTest.expected_label r = JStr l).
Proof.
  assert (Bad : forall e r,
            FullLocalTest.predicted_label r = None ->
            FullLocalTest.evidence r = None ->
            FullLocalTest.is_correct r = false ->
            let r' := FullLocalTest.set_error e r in
            (FullLocalTest.error r' = None <-> FullLocalTest.predicted_label r' <> None)
            /\ (FullLocalTest.predicted_label r' = None
                <-> FullLocalTest.evidence r' = None)
            /\ (FullLocalTest.is_correct r' = true
                <-> exists l, FullLocalTest.predicted_label r' = Some l
                              /\ FullLocalTest.expected_label r' = JStr l)).
  { intros e r Hp He Hc. simpl. rewrite Hp, He, Hc.
    repeat split; try discriminate; try congruence.
    intros [l [H _]]. discriminate. }
  unfold FullLocalTest.test_single_claim. cbv zeta.
  destruct (optimize_claim st _) as [o|e];
    [|repeat split; try apply Bad; reflexivity].
  destruct (get_query_for_wiki_article st _) as [q|e];
    [|repeat split; try apply Bad; reflexivity].
  destruct (get_first_n_results_urls st q 1) as [found|e];
    [|repeat split; try apply Bad; reflexivity].
  destruct found as [[|u us]|];
    try (repeat split; try apply Bad; reflexivity).
  destruct (scrape_wikipedia_content st u) as [[content|]|e];
    try (repeat split; try apply Bad; reflexivity).
  destruct (truthy content);
    [|repeat split; try apply Bad; reflexivity].
  destruct (find_answer_in_article st content _) as [[v|]|e];
    try (repeat split; try apply Bad; reflexivity).
  simpl. repeat split; try discriminate; try congruence.
  - intros H. apply eq_str_spec in H. exists (label v). auto.
  - intros [l [[= <-] H]]. now apply eq_str_spec.
Qed.

Lemma eq_str_true_not_false (v : json) :
  FullLocalTest.eq_str v "True" = true -> FullLocalTest.eq_str v "False" = false.
Proof. intros H. apply eq_str_spec in H. now subst v. Qed.

(** X23.  The counts of [calculate_score] on any list of results: a label's
    correct tests are among the tests that expect the label, the tests
    that expect ["True"] and those that expect ["False"] are disjoint
    parts of the results, and their correct tests add up to at most the
    correct tests, exactly so when every expected label is one of the
    two. *)
Theorem score_counts_consistent (results : list FullLocalTest.TestResult) :
  let s := FullLocalTest.calculate_score results in
  (FullLocalTest.true_correct_count s <= FullLocalTest.true_expected_count s)%nat
  /\ (FullLocalTest.false_correct_count s <= FullLocalTest.false_expected_count s)%nat
  /\ (FullLocalTest.true_expected_count s + FullLocalTest.false_expected_count s
      <= FullLocalTest.total_tests s)%nat
  /\ (FullLocalTest.true_correct_count s + FullLocalTest.false_correct_count s
      <= FullLocalTest.correct_tests s)%nat
  /\ (FullLocalTest.correct_tests s <= FullLocalTest.total_tests s)%nat
  /\ (Forall (fun r => FullLocalTest.expected_label r = JStr "True"
                       \/ FullLocalTest.expected_label r = JStr "False") results ->
      (FullLocalTest.true_correct_count s + FullLocalTest.false_correct_count s
       = FullLocalTest.correct_tests s)%nat
      /\ (FullLocalTest.true_expected_count s + FullLocalTest.false_expected_count s
          = FullLocalTest.total_tests s)%nat).
Proof.
  cbv zeta. unfold FullLocalTest.calculate_score, FullLocalTest.count.
  cbn [FullLocalTest.total_tests FullLocalTest.correct_tests
       FullLocalTest.true_expected_count FullLocalTest.true_correct_count
       FullLocalTest.false_expected_count FullLocalTest.false_correct_count].
  induction results as [|r results IH]; [simpl; repeat split; lia|].
  destruct IH as (I1 & I2 & I3 & I4 & I5 & I6).
  assert (D := eq_str_true_not_false (FullLocalTest.expected_label r)).
  cbn [List.filter].
  destruct (FullLocalTest.eq_str (FullLocalTest.expected_label r) "True") eqn:T;
    destruct (FullLocalTest.eq_str (FullLocalTest.expected_label r) "False") eqn:F;
    try (specialize (D eq_refl); discriminate);
    destruct (FullLocalTest.is_correct r) eqn:C;
    cbn [List.filter length]; rewrite ?C; cbn [length];
    (do 5 (split; [lia|]);
     intros A; inversion A as [|? ? Hr Hrest]; subst;
     specialize (I6 Hrest);
     try (destruct Hr as [Hr | Hr]; apply eq_str_spec in Hr; congruence);
     lia).
Qed.

(** A test that counts as correct records no error. *)
Lemma correct_test_has_no_error (st : Stages) (t : FullLocalTest.TestData) :
  FullLocalTest.is_correct (FullLocalTest.test_single_claim st t) = true ->
  FullLocalTest.error (FullLocalTest.test_single_claim st t) = None.
Proof.
  unfold FullLocalTest.test_single_claim. cbv zeta.
  destruct (optimize_claim st _) as [o|e]; [|discriminate].
  destruct (get_query_for_wiki_article st _) as [q|e]; [|discriminate].
  destruct (get_first_n_results_urls st q 1) as [found|e]; [|discriminate].
  destruct found as [[|u us]|]; try discriminate.
  destruct (scrape_wikipedia_content st u) as [[content|]|e]; try discriminate.
  destruct (truthy content); [|discriminate].
  destruct (find_answer_in_article st content _) as [[v|]|e]; try discriminate.
  reflexivity.
Qed.

(** X24.  A run of the test runner.  There is one result for each selected
    test: all the tests without [max_tests] and also for [max_tests =
    0], which the test [if max_tests:] takes as absent, the first
    [max_tests] of them for a positive value.  A correct test records
    no error, so the correct tests and the errors together are at most
    the total. *)
Theorem score_of_a_run
  (st : Stages) (max_tests : option Z) (dataset : list FullLocalTest.TestData) :
  let s := FullLocalTest.calculate_score
             (FullLocalTest.run_tests st max_tests dataset) in
  FullLocalTest.total_tests s
  = length (FullLocalTest.select_tests max_tests dataset)
  /\ (FullLocalTest.correct_tests s + FullLocalTest.error_count s
      <= FullLocalTest.total_tests s)%nat
  /\ (max_tests = None \/ max_tests = Some 0%Z ->
      FullLocalTest.total_tests s = length dataset)
  /\ (forall n, max_tests = Some n -> (0 < n)%Z ->
      FullLocalTest.total_tests s = Nat.min (Z.to_nat n) (length dataset)).
Proof.
  cbv zeta. unfold FullLocalTest.calculate_score, FullLocalTest.run_tests.
  cbn [FullLocalTest.total_tests FullLocalTest.correct_tests FullLocalTest.error_count].
  rewrite length_map. split; [reflexivity|]. split.
  - unfold FullLocalTest.count.
    induction (FullLocalTest.select_tests max_tests dataset) as [|t ts IH];
      [simpl; lia|].
    cbn [List.map List.filter length].
    pose proof (correct_test_has_no_error st t) as Hc.
    destruct (FullLocalTest.is_correct (FullLocalTest.test_single_claim st t)) eqn:C;
      destruct (FullLocalTest.error (FullLocalTest.test_single_claim st t)) eqn:E;
      cbn [length]; try lia.
    specialize (Hc eq_refl). discriminate.
  - split.
    + intros [-> | ->]; reflexivity.
    + intros n -> Hn. unfold FullLocalTest.select_tests.
      assert (Z0 : (n =? 0)%Z = false) by (apply Z.eqb_neq; lia).
      rewrite Z0, slice_to_firstn by lia. apply length_firstn.
Qed.

(* ================================================================= *)
(** ** The address of the local model server *)

Lemma all_slashes (k : nat) : all (Ascii.eqb "/") (slashes k) = true.
Proof. induction k as [|k IH]; simpl; [reflexivity | exact IH]. Qed.

Lemma all_slashes_inv (s : str) :
  all (Ascii.eqb "/") s = true -> exists k, s = slashes k.
Proof.
  induction s as [|c s IH]; cbn [all]; [now exists 0%nat|].
  intros H. apply andb_true_iff in H as [Hc Hs].
  destruct (IH Hs) as [k ->]. apply Ascii.eqb_eq in Hc. subst c.
  now exists (S k).
Qed.

Lemma rstrip_char_all (s : str) :
  all (Ascii.eqb "/") s = true -> LocalClientSetup.rstrip_char "/" s = "".
Proof. destruct s as [|c s]; [reflexivity|]. cbn [LocalClientSetup.rstrip_char]. now intros ->. Qed.

Lemma rstrip_char_empty (s : str) :
  LocalClientSetup.rstrip_char "/" s = "" -> all (Ascii.eqb "/") s = true.
Proof.
  destruct s as [|c s]; [reflexivity|]. cbn [LocalClientSetup.rstrip_char].
  destruct (all (Ascii.eqb "/") (String c s)); [reflexivity | discriminate].
Qed.

Lemma rstrip_char_split (s : str) :
  exists k, s = LocalClientSetup.rstrip_char "/" s ++ slashes k.
Proof.
  induction s as [|c s IH]; [now exists 0%nat|].
  cbn [LocalClientSetup.rstrip_char].
  destruct (all (Ascii.eqb "/") (String c s)) eqn:A.
  - apply all_slashes_inv in A. exact A.
  - destruct IH as [k IH]. exists k. simpl. now rewrite <- IH.
Qed.

Lemma rstrip_char_no_slash_at_end (s t : str) :
  LocalClientSetup.rstrip_char "/" s <> t ++ "/".
Proof.
  revert t. induction s as [|c s IH]; intros t.
  - destruct t; discriminate.
  - cbn [LocalClientSetup.rstrip_char].
    destruct (all (Ascii.eqb "/") (String c s)) eqn:A; [destruct t; discriminate|].
    destruct t as [|d t]; simpl.
    + intros [= -> E]. apply rstrip_char_empty in E.
      simpl in A. rewrite E in A. discriminate.
    + intros [= _ E]. now apply (IH t).
Qed.

Lemma rstrip_char_slashes (s : str) (k : nat) :
  LocalClientSetup.rstrip_char "/" (s ++ slashes k)
  = LocalClientSetup.rstrip_char "/" s.
Proof.
  induction s as [|c s IH].
  - simpl. apply rstrip_char_all, all_slashes.
  - change (String c s ++ slashes k) with (String c (s ++ slashes k)).
    cbn [LocalClientSetup.rstrip_char all].
    rewrite all_app, all_slashes, andb_true_r, IH. reflexivity.
Qed.

(** X25.  The slashes at the end of the base URL do not count: the client
    keeps the base URL without them, so the address it posts to has one
    slash between the base and [v1/chat/completions] however many the
    base URL was given with. *)
Theorem trailing_slashes_ignored (base_url model : str) :
  (exists k,
     base_url
     = LocalClientSetup.base_url (LocalClientSetup.__init__ base_url model)
       ++ slashes k)
  /\ (forall t,
        LocalClientSetup.base_url (LocalClientSetup.__init__ base_url model)
        <> t ++ "/")
  /\ (forall k,
        LocalClientSetup.request_url
          (LocalClientSetup.__init__ (base_url ++ slashes k) model)
        = LocalClientSetup.request_url (LocalClientSetup.__init__ base_url model)).
Proof.
  split; [apply rstrip_char_split|].
  split; [intros t; apply rstrip_char_no_slash_at_end|].
  intros k. unfold LocalClientSetup.request_url, LocalClientSetup.__init__.
  cbn [LocalClientSetup.base_url]. now rewrite rstrip_char_slashes.
Qed.
